(** * packages/db/src/internal.ts: schema-to-storage compiler

    A shallow embedding of [internal.ts]: the DDL text generator
    ([getCreateTableQuery], [getTableIndexQueries], [getModifiers],
    [getDefaultValueSql]), the table-descriptor builder ([collectionToTable],
    [columnMapper]), the write guard ([checkIfModificationIsAllowed],
    [createLocalDatabaseClient]) and the installer ([setupDbTables]).

    Conventions of the embedding.
    - A JS object used as an ordered dictionary ([collections],
      [collection.fields], [collection.indexes], the column record of a table)
      is an association list holding its own properties in [Object.entries]
      order (array-index keys first, ascending, then the other keys in
      insertion order); reading [o[k]] also sees the properties inherited
      from [Object.prototype].
    - A property of type [boolean | undefined] is an [option bool]; [truthy]
      is the coercion performed by [!x] / [!!x] / [x ? a : b].
    - Code that can throw, or end the process, returns a [Completion]. *)

From Stdlib Require Import String Ascii List ZArith Bool Lia.
From Stdlib Require Import DecimalString.
Import ListNotations.
Open Scope list_scope.
Open Scope string_scope.

Set Implicit Arguments.

(** ** Completions *)

(** Values thrown by the code or by its collaborators. *)
Inductive Exn :=
| Error (message : string)
| TypeError (message : string)
| ZodError (message : string)
| Thrown (rendering : string)   (* another value, with its conversion to text *)
| Unprintable (raised : Exn).   (* a value whose conversion to text throws:
                                   a Symbol, an object without toString, ... *)

(** How a call ends: it returns, it throws, or it ends the process through
    [process.exit(code)]; [stdout] holds what [console.log] printed on the
    way to the exit. *)
Inductive Completion (A : Type) :=
| Return (a : A)
| Throw (e : Exn)
| Exit (stdout : list string) (code : Z).

Arguments Return {A} a.
Arguments Throw {A} e.
Arguments Exit {A} stdout code.

Definition bind {A B} (c : Completion A) (k : A -> Completion B) : Completion B :=
  match c with
  | Return a => k a
  | Throw e => Throw e
  | Exit out code => Exit out code
  end.

Notation "x <- c ;; k" := (bind c (fun x => k))
  (at level 61, c at next level, right associativity).

(** [Error.prototype.toString] for an error of the given name. *)
Definition error_toString (name message : string) : string :=
  if String.eqb message "" then name else name ++ ": " ++ message.

(** The conversion to text made by a template literal around a caught value;
    a ZodError converts to its message. *)
Definition exn_toString (e : Exn) : Completion string :=
  match e with
  | Error m => Return (error_toString "Error" m)
  | TypeError m => Return (error_toString "TypeError" m)
  | ZodError m => Return m
  | Thrown r => Return r
  | Unprintable raised => Throw raised
  end.

(** A [for ... of] loop whose body computes one element and pushes it. *)
Fixpoint mapM {A B} (f : A -> Completion B) (l : list A) : Completion (list B) :=
  match l with
  | [] => Return []
  | x :: l' => y <- f x ;; ys <- mapM f l' ;; Return (y :: ys)
  end.

Definition returns {A} (c : Completion A) : bool :=
  match c with Return _ => true | _ => false end.

(** ** JS dictionaries and coercions *)

Definition truthy (b : option bool) : bool :=
  match b with Some true => true | _ => false end.

(** The own property [k] of [o], if there is one. *)
Fixpoint js_get {V} (o : list (string * V)) (k : string) : option V :=
  match o with
  | [] => None
  | (k', v) :: o' => if String.eqb k' k then Some v else js_get o' k
  end.

(** [k] is a key of [o]. *)
Definition has_own {V} (o : list (string * V)) (k : string) : bool :=
  match js_get o k with Some _ => true | None => false end.

(** The property names of [Object.prototype]. *)
Definition Object_prototype_names : list string :=
  [ "constructor"; "hasOwnProperty"; "isPrototypeOf"; "propertyIsEnumerable";
    "toLocaleString"; "toString"; "valueOf"; "__proto__";
    "__defineGetter__"; "__defineSetter__"; "__lookupGetter__";
    "__lookupSetter__" ].

Definition is_inherited (k : string) : bool :=
  existsb (String.eqb k) Object_prototype_names.

(** What reading [o[k]] gives on a plain object: the own property, a
    property inherited from [Object.prototype], or [undefined]. *)
Inductive Lookup (V : Type) :=
| own (v : V)
| inherited (name : string)
| undefined.

Arguments own {V} v.
Arguments inherited {V} name.
Arguments undefined {V}.

Definition js_lookup {V} (o : list (string * V)) (k : string) : Lookup V :=
  match js_get o k with
  | Some v => own v
  | None => if is_inherited k then inherited k else undefined
  end.

(** Array indices: the canonical decimal texts of 0 .. 2^32 - 2. *)
Definition digit_of (c : ascii) : option N :=
  let n := N_of_ascii c in
  if (N.leb 48 n && N.leb n 57)%bool then Some (n - 48)%N else None.

Fixpoint digits_value (s : string) (acc : N) : option N :=
  match s with
  | EmptyString => Some acc
  | String c s' =>
      match digit_of c with
      | Some d => digits_value s' (acc * 10 + d)%N
      | None => None
      end
  end.

Definition array_index (k : string) : option N :=
  match k with
  | EmptyString => None
  | String c rest =>
      if (Ascii.eqb c "0" && negb (String.eqb rest ""))%bool then None
      else match digits_value k 0 with
           | Some n => if N.leb n 4294967294 then Some n else None
           | None => None
           end
  end.

(** [k] is enumerated before [k']: array indices first, in ascending order. *)
Definition enumerated_before (k k' : string) : bool :=
  match array_index k, array_index k' with
  | Some n, Some n' => N.ltb n n'
  | Some _, None => true
  | None, _ => false
  end.

Fixpoint js_replace {V} (o : list (string * V)) (k : string) (v : V)
  : list (string * V) :=
  match o with
  | [] => []
  | (k', v') :: o' =>
      if String.eqb k' k then (k', v) :: o' else (k', v') :: js_replace o' k v
  end.

Fixpoint js_insert {V} (o : list (string * V)) (k : string) (v : V)
  : list (string * V) :=
  match o with
  | [] => [(k, v)]
  | (k', v') :: o' =>
      if enumerated_before k k' then (k, v) :: o
      else (k', v') :: js_insert o' k v
  end.

(** [o[k] = v]: an existing key keeps its place; a new key goes where the
    enumeration order puts it, last unless it is an array index. *)
Definition js_set {V} (o : list (string * V)) (k : string) (v : V)
  : list (string * V) :=
  if has_own o k then js_replace o k v else js_insert o k v.

(** [String.prototype.includes]. *)
Fixpoint includes (s sub : string) : bool :=
  if String.prefix sub s then true
  else match s with
       | EmptyString => false
       | String _ s' => includes s' sub
       end.

(** ** The SQL dialect (drizzle-orm's [SQLiteAsyncDialect]) *)

Definition dquote : string := String "034"%char EmptyString.
Definition squote : string := String "039"%char EmptyString.

Module sqlite.

(** [escapeName(name)] wraps the identifier in double quotes. *)
Definition escapeName (name : string) : string := dquote ++ name ++ dquote.

(** [str.replace(/'/g, "''")] *)
Fixpoint double_quotes (str : string) : string :=
  match str with
  | EmptyString => EmptyString
  | String c rest =>
      if Ascii.eqb c "039"%char
      then String c (String c (double_quotes rest))
      else String c (double_quotes rest)
  end.

(** [escapeString(str)] doubles single quotes and wraps in single quotes. *)
Definition escapeString (str : string) : string :=
  squote ++ double_quotes str ++ squote.

End sqlite.

(** ** Host builtins

    The value of a Json default is an arbitrary JS value, and the native
    descriptor parses date defaults; both go through builtins that the code
    only calls. *)

Inductive Stringified :=
| SString (s : string)      (* JSON.stringify returned text *)
| SUndefined                (* JSON.stringify returned undefined *)
| SThrows (e : Exn).        (* JSON.stringify threw *)

Class Host := {
  JsValue : Type;
  JSON_stringify : JsValue -> Stringified;
  JsDate : Type;
  (** [z.coerce.date().parse(s)] *)
  coerce_date_parse : string -> Completion JsDate
}.

(** Number to text, as a template literal renders an integer-valued number:
    its decimal digits. This is the rendering for the safe integers (up to
    2^53 - 1 in magnitude); larger numbers are not all integers of the
    language, and from 1e21 on they are rendered with an exponent. *)
Definition number_toString (n : Z) : string :=
  NilZero.string_of_int (Z.to_int n).

Section Core.

Context {host : Host}.

(** ** Data model (types.ts) *)

Inductive FieldType := text_t | number_t | boolean_t | date_t | json_t.

(** Modelled from the spec: the declarations of [./types.js]. A field is one
    of five variants; [optional] and [unique] are common to all, [default] is
    type-dependent ([None] is [undefined]), [primaryKey] exists on Text and
    Number only. *)
Inductive DBField :=
| TextField (optional unique : option bool) (default : option string)
            (primaryKey : option bool)
| NumberField (optional unique : option bool) (default : option Z)
              (primaryKey : option bool)
| BooleanField (optional unique : option bool) (default : option bool)
| DateField (optional unique : option bool) (default : option string)
| JsonField (optional unique : option bool) (default : option JsValue).

Definition field_type (field : DBField) : FieldType :=
  match field with
  | TextField _ _ _ _ => text_t
  | NumberField _ _ _ _ => number_t
  | BooleanField _ _ _ => boolean_t
  | DateField _ _ _ => date_t
  | JsonField _ _ _ => json_t
  end.

Definition field_optional (field : DBField) : option bool :=
  match field with
  | TextField o _ _ _ | NumberField o _ _ _ | BooleanField o _ _
  | DateField o _ _ | JsonField o _ _ => o
  end.

Definition field_unique (field : DBField) : option bool :=
  match field with
  | TextField _ u _ _ | NumberField _ u _ _ | BooleanField _ u _
  | DateField _ u _ | JsonField _ u _ => u
  end.

(** [field.default !== undefined] *)
Definition default_defined (field : DBField) : bool :=
  match field with
  | TextField _ _ (Some _) _ | NumberField _ _ (Some _) _
  | BooleanField _ _ (Some _) | DateField _ _ (Some _)
  | JsonField _ _ (Some _) => true
  | _ => false
  end.

(** [field.primaryKey], [None] where the variant has no such property. *)
Definition field_primaryKey (field : DBField) : option bool :=
  match field with
  | TextField _ _ _ pk | NumberField _ _ _ pk => pk
  | _ => None
  end.

(** Modelled from the spec: an index is declared [on] one field name or an
    ordered list of field names, and may be [unique]. *)
Inductive IndexOn :=
| OnOne (column : string)
| OnMany (columns : list string).

Record DBIndex := {
  on : IndexOn;
  index_unique : option bool
}.

(** Modelled from the spec: a collection; [indexes] may be absent, [_setMeta]
    tells whether the metadata callback is defined. *)
Record DBCollection := {
  fields : list (string * DBField);
  indexes : option (list (string * DBIndex));
  writable : bool;
  _setMeta : bool
}.

Definition DBCollections := list (string * DBCollection).

Definition SQL := string.

(** ** DDL generation *)

Definition hasPrimaryKey (field : DBField) : bool :=
  truthy (field_primaryKey field).

Definition schemaTypeToSqlType (type : FieldType) : string :=
  match type with
  | date_t | text_t | json_t => "text"
  | number_t | boolean_t => "integer"
  end.

Definition hasDefault (field : DBField) : bool :=
  if default_defined field then true
  else if hasPrimaryKey field &&
          match field_type field with number_t => true | _ => false end
       then true
       else false.

(** The line printed for an invalid Json default; [bold] (kleur) is taken
    without colour codes. *)
Definition invalid_default_message (columnName : string) : string :=
  "Invalid default value for column " ++ columnName ++
  ". Defaults must be valid JSON when using the `json()` type.".

(** [sqlite.escapeString(x)] where [x] may be [undefined]. *)
Definition escapeString_of (x : option string) : Completion string :=
  match x with
  | Some s => Return (sqlite.escapeString s)
  | None => Throw (TypeError "Cannot read properties of undefined (reading 'replace')")
  end.

(** [x === 'now'] *)
Definition is_now (x : option string) : bool :=
  match x with
  | Some s => String.eqb s "now"
  | None => false
  end.

Definition getDefaultValueSql (columnName : string) (column : DBField)
  : Completion string :=
  match column with
  | BooleanField _ _ d => Return (if truthy d then "TRUE" else "FALSE")
  | NumberField _ _ d _ =>
      Return match d with
             | Some n => if Z.eqb n 0 then "AUTOINCREMENT" else number_toString n
             | None => "AUTOINCREMENT"
             end
  | TextField _ _ d _ => escapeString_of d
  | DateField _ _ d =>
      if is_now d then Return "CURRENT_TIMESTAMP" else escapeString_of d
  | JsonField _ _ d =>
      match d with
      | None => escapeString_of None
      | Some v =>
          match JSON_stringify v with
          | SString s => escapeString_of (Some s)
          | SUndefined => escapeString_of None
          | SThrows _ => Exit [invalid_default_message columnName] 0
          end
      end
  end.

Definition getModifiers (fieldName : string) (field : DBField) : Completion string :=
  let modifiers := "" in
  if hasPrimaryKey field then Return " PRIMARY KEY"
  else
    let modifiers :=
      if negb (truthy (field_optional field)) then modifiers ++ " NOT NULL"
      else modifiers in
    let modifiers :=
      if truthy (field_unique field) then modifiers ++ " UNIQUE" else modifiers in
    if hasDefault field then
      d <- getDefaultValueSql fieldName field ;;
      Return (modifiers ++ " DEFAULT " ++ d)
    else Return modifiers.

Definition colQuery (entry : string * DBField) : Completion string :=
  let '(columnName, column) := entry in
  m <- getModifiers columnName column ;;
  Return (sqlite.escapeName columnName ++ " " ++
          schemaTypeToSqlType (field_type column) ++ m).

Definition getCreateTableQuery (collectionName : string) (collection : DBCollection)
  : Completion string :=
  let query := "CREATE TABLE " ++ sqlite.escapeName collectionName ++ " (" in
  let colHasPrimaryKey :=
    List.find (fun entry => hasPrimaryKey (snd entry)) (fields collection) in
  let colQueries :=
    match colHasPrimaryKey with
    | None => ["_id INTEGER PRIMARY KEY"]
    | Some _ => []
    end in
  cols <- mapM colQuery (fields collection) ;;
  Return (query ++ String.concat ", " (colQueries ++ cols)%list ++ ")").

(** [Array.isArray(indexProps.on) ? indexProps.on : [indexProps.on]] *)
Definition onColNames (indexProps : DBIndex) : list string :=
  match on indexProps with
  | OnMany l => l
  | OnOne c => [c]
  end.

(** [collection.indexes ?? {}] *)
Definition indexes_or_empty (collection : DBCollection) : list (string * DBIndex) :=
  match indexes collection with
  | Some ix => ix
  | None => []
  end.

Definition indexQuery (collectionName : string) (entry : string * DBIndex) : SQL :=
  let '(indexName, indexProps) := entry in
  let onCols := map sqlite.escapeName (onColNames indexProps) in
  let unique := if truthy (index_unique indexProps) then "UNIQUE " else "" in
  "CREATE " ++ unique ++ "INDEX " ++ sqlite.escapeName indexName ++ " ON " ++
  sqlite.escapeName collectionName ++ " (" ++ String.concat ", " onCols ++ ")".

Definition getTableIndexQueries (collectionName : string) (collection : DBCollection)
  : list SQL :=
  map (indexQuery collectionName) (indexes_or_empty collection).

(** ** Table descriptors (drizzle-orm column and index builders)

    A column builder is recorded as the constructor that made it and the
    builder methods applied to it, in application order. *)

Inductive ColumnKind :=
| text              (* text(name) *)
| integer           (* integer(name) *)
| integer_boolean   (* integer(name, { mode: 'boolean' }) *)
| jsonType          (* customType: JSON.stringify on write, JSON.parse on read *)
| dateType.         (* customType: toISOString on write, new Date on read *)

Inductive DefaultArg :=
| DText (s : string)
| DNumber (n : Z)
| DBoolean (b : bool)
| DJson (v : JsValue)
| DSql (raw : string)      (* a sql`...` fragment *)
| DDate (d : JsDate).

Inductive BuilderCall :=
| call_default (value : DefaultArg)
| call_primaryKey (autoIncrement : bool)
| call_notNull
| call_unique.

Record ColumnBuilder := {
  columnName : string;
  kind : ColumnKind;
  calls : list BuilderCall
}.

Definition column (k : ColumnKind) (name : string) : ColumnBuilder :=
  {| columnName := name; kind := k; calls := [] |}.

Definition apply_call (c : ColumnBuilder) (m : BuilderCall) : ColumnBuilder :=
  {| columnName := columnName c; kind := kind c; calls := (calls c ++ [m])%list |}.

(** [c.default(...)] was applied. *)
Definition carries_default (c : ColumnBuilder) : bool :=
  existsb (fun m => match m with call_default _ => true | _ => false end) (calls c).

Record IndexBuilder := {
  indexName : string;
  index_on : list (Lookup ColumnBuilder)   (* what [ormTable[colName]] gave *)
}.

Record Table := {
  tableName : string;
  columns : list (string * ColumnBuilder);
  table_indexes : list (string * IndexBuilder)
}.

Definition getTableName (t : Table) : string := tableName t.

(** [sqliteTable(name, columns, extraConfig)] *)
Definition sqliteTable (name : string) (cols : list (string * ColumnBuilder))
  (extraConfig : list (string * ColumnBuilder) -> list (string * IndexBuilder)) : Table :=
  {| tableName := name; columns := cols; table_indexes := extraConfig cols |}.

(** [x === true] *)
Definition strictly_true (b : option bool) : bool :=
  match b with Some true => true | _ => false end.

Definition atLeastOne {T} (arr : list T) : bool := Nat.ltb 0 (List.length arr).

(** [if (value !== undefined) c = c.default(inject value)] *)
Definition with_default {T} (inject : T -> DefaultArg) (value : option T)
  (c : ColumnBuilder) : ColumnBuilder :=
  match value with
  | Some v => apply_call c (call_default (inject v))
  | None => c
  end.

Definition columnMapper (fieldName : string) (field : DBField)
  (isJsonSerializable : bool) : Completion ColumnBuilder :=
  c <- match field with
       | TextField _ _ d pk =>
           let c := column text fieldName in
           let c := with_default DText d c in
           let c := if strictly_true pk then apply_call c (call_primaryKey false) else c in
           Return c
       | NumberField _ _ d pk =>
           let c := column integer fieldName in
           let c := with_default DNumber d c in
           let c := if strictly_true pk then apply_call c (call_primaryKey true) else c in
           Return c
       | BooleanField _ _ d =>
           let c := column integer_boolean fieldName in
           Return (with_default DBoolean d c)
       | JsonField _ _ d =>
           let c := column jsonType fieldName in
           Return (with_default DJson d c)
       | DateField _ _ d =>
           if isJsonSerializable then
             let c := column text fieldName in
             Return (with_default
                       (fun s => if String.eqb s "now" then DSql "CURRENT_TIMESTAMP"
                                 else DText s) d c)
           else
             let c := column dateType fieldName in
             match d with
             | Some s =>
                 if String.eqb s "now"
                 then Return (apply_call c (call_default (DSql "CURRENT_TIMESTAMP")))
                 else parsed <- coerce_date_parse s ;;
                      Return (apply_call c (call_default (DDate parsed)))
             | None => Return c
             end
       end ;;
  let c := if negb (truthy (field_optional field)) then apply_call c call_notNull else c in
  let c := if truthy (field_unique field) then apply_call c call_unique else c in
  Return c.

(** A [for ... of] loop that updates an accumulator. *)
Fixpoint foldM {A St} (f : St -> A -> Completion St) (st : St) (l : list A)
  : Completion St :=
  match l with
  | [] => Return st
  | x :: l' => st' <- f st x ;; foldM f st' l'
  end.

(** The body of the loop over the declared indexes. *)
Definition index_step (ormTable : list (string * ColumnBuilder))
  (ixs : list (string * IndexBuilder)) (entry : string * DBIndex)
  : list (string * IndexBuilder) :=
  let '(ixName, indexProps) := entry in
  let onCols := map (js_lookup ormTable) (onColNames indexProps) in
  if negb (atLeastOne onCols) then ixs
  else js_set ixs ixName {| indexName := ixName; index_on := onCols |}.

(** The callback handed to [sqliteTable]: the indexes, built against the
    table's columns. *)
Definition tableIndexes (collection : DBCollection)
  (ormTable : list (string * ColumnBuilder)) : list (string * IndexBuilder) :=
  fold_left (index_step ormTable) (indexes_or_empty collection) [].

(** The body of the loop over the fields:
    [columns[fieldName] = columnMapper(fieldName, field, isJsonSerializable)]. *)
Definition column_step (isJsonSerializable : bool)
  (cols : list (string * ColumnBuilder)) (entry : string * DBField)
  : Completion (list (string * ColumnBuilder)) :=
  let '(fieldName, field) := entry in
  c <- columnMapper fieldName field isJsonSerializable ;;
  Return (js_set cols fieldName c).

Definition collectionToTable (name : string) (collection : DBCollection)
  (isJsonSerializable : bool) : Completion Table :=
  let cols : list (string * ColumnBuilder) :=
    if negb (existsb (fun entry => hasPrimaryKey (snd entry)) (fields collection))
    then [("_id", apply_call (column integer "_id") (call_primaryKey false))]
    else [] in
  cols <- foldM (column_step isJsonSerializable) cols (fields collection) ;;
  Return (sqliteTable name cols (tableIndexes collection)).

(** The default value of the parameter [isJsonSerializable]. *)
Definition isJsonSerializable_default : bool := true.

(** ** The database handle, the write guard and the installer *)

Section Client.

(** [St] is the state of the underlying client, [R] what its builders give. *)
Variables St R : Type.

Definition Op (A : Type) : Type := St -> Completion A * St.

Record Database := {
  run : SQL -> Op unit;
  insert : Table -> Op R;
  update : Table -> Op R;
  delete : Table -> Op R;
  select : Table -> Op R
}.

Definition readonly_message (name : string) : string :=
  "The [" ++ name ++ "] collection is read-only.".

Definition checkIfModificationIsAllowed (collections : DBCollections) (T : Table)
  : Completion unit :=
  let name := getTableName T in
  match js_lookup collections name with
  | undefined =>
      Throw (TypeError "Cannot read properties of undefined (reading 'writable')")
  | own collection =>
      if negb (writable collection)
      then Throw (Error (readonly_message name))
      else Return tt
  | inherited _ =>
      (* the inherited function or object has no [writable]: [!undefined] *)
      Throw (Error (readonly_message name))
  end.

(** A mutation entry point behind the check. *)
Definition guarded (collections : DBCollections) (drizzleOp : Table -> Op R)
  : Table -> Op R :=
  fun T st =>
    match checkIfModificationIsAllowed collections T with
    | Return _ => drizzleOp T st
    | Throw e => (Throw e, st)
    | Exit out code => (Exit out code, st)
    end.

(** [connect dbUrl] stands for [drizzle(createClient({ url: dbUrl }))]. *)
Definition createLocalDatabaseClient (connect : string -> Database)
  (collections : DBCollections) (dbUrl : string) (seeding : bool) : Database :=
  let db := connect dbUrl in
  if seeding then db
  else
    let drizzleInsert := insert db in
    let drizzleUpdate := update db in
    let drizzleDelete := delete db in
    {| run := run db;
       insert := guarded collections drizzleInsert;
       update := guarded collections drizzleUpdate;
       delete := guarded collections drizzleDelete;
       select := select db |}.

Inductive Mode := dev | build.

Inductive LogTarget := to_logger | to_console.

(** What the seed procedure receives: the handle, the mode, and (through the
    collections' metadata) the descriptors attached before the call. *)
Record SeedArgs := {
  seed_db : Database;
  seed_mode : Mode;
  seed_tables : list (string * Table)
}.

Definition SeedProcedure := SeedArgs -> Op unit.

(** The observable course of one setup run. *)
Record SetupRun := {
  outcome : Completion unit;
  client : St;
  ran : list SQL;                            (* statements given to db.run *)
  metaCalls : list (string * Table);         (* _setMeta({ table }) calls *)
  seeded : bool;                             (* the seed procedure was called *)
  errorLog : list (LogTarget * string)       (* (logger ?? console).error *)
}.

Definition setupQueriesOf (entry : string * DBCollection) : Completion (list SQL) :=
  let '(name, collection) := entry in
  let dropQuery := "DROP TABLE IF EXISTS " ++ name in
  createQuery <- getCreateTableQuery name collection ;;
  let indexQueries := getTableIndexQueries name collection in
  Return (dropQuery :: createQuery :: indexQueries).

(** The body of the first loop: [setupQueries.push(dropQuery, createQuery,
    ...indexQueries)]. *)
Definition queries_step (qs : list SQL) (entry : string * DBCollection)
  : Completion (list SQL) :=
  more <- setupQueriesOf entry ;; Return (qs ++ more)%list.

(** The first loop of [setupDbTables]. *)
Definition setupQueries (collections : DBCollections) : Completion (list SQL) :=
  foldM queries_step [] collections.

(** The second loop: [await db.run(q)] for each statement, in order. *)
Fixpoint runAll (db : Database) (qs : list SQL) (st : St) (done : list SQL)
  : Completion unit * St * list SQL :=
  match qs with
  | [] => (Return tt, st, done)
  | q :: qs' =>
      match run db q st with
      | (Return _, st') => runAll db qs' st' (done ++ [q])%list
      | (Throw e, st') => (Throw e, st', (done ++ [q])%list)
      | (Exit out code, st') => (Exit out code, st', (done ++ [q])%list)
      end
  end.

(** The loop that builds a table per collection and hands it to [_setMeta]. *)
Fixpoint attachTables (collections : DBCollections) (metas : list (string * Table))
  : Completion unit * list (string * Table) :=
  match collections with
  | [] => (Return tt, metas)
  | (name, collection) :: rest =>
      match collectionToTable name collection isJsonSerializable_default with
      | Return table =>
          attachTables rest
            (if _setMeta collection then (metas ++ [(name, table)])%list else metas)
      | Throw e => (Throw e, metas)
      | Exit out code => (Exit out code, metas)
      end
  end.

Definition newline : string := String "010"%char EmptyString.

(** The line of the catch handler, around the text of the caught value. *)
Definition seed_failure_line (rendering : string) : string :=
  "Failed to seed data. Did you update to match recent schema changes? Full error:"
  ++ newline ++ newline ++ rendering.



Definition stopped (o : Completion unit) (st : St) (done : list SQL)
  (metas : list (string * Table)) : SetupRun :=
  {| outcome := o; client := st; ran := done; metaCalls := metas;
     seeded := false; errorLog := [] |}.

Definition setupDbTables (db : Database) (data : option SeedProcedure)
  (collections : DBCollections) (logger : bool) (mode : Mode) (st : St) : SetupRun :=
  match setupQueries collections with
  | Throw e => stopped (Throw e) st [] []
  | Exit out code => stopped (Exit out code) st [] []
  | Return queries =>
      match runAll db queries st [] with
      | (Return _, st1, done) =>
          match data with
          | None => stopped (Return tt) st1 done []
          | Some seedProcedure =>
              match attachTables collections [] with
              | (Return _, metas) =>
                  let args := {| seed_db := db; seed_mode := mode;
                                 seed_tables := metas |} in
                  match seedProcedure args st1 with
                  | (Throw e, st2) =>
                      (* the template literal converts [e] to text first *)
                      match exn_toString e with
                      | Return rendering =>
                          {| outcome := Return tt; client := st2; ran := done;
                             metaCalls := metas; seeded := true;
                             errorLog := [(if logger then to_logger else to_console,
                                           seed_failure_line rendering)] |}
                      | Throw raised =>
                          {| outcome := Throw raised; client := st2; ran := done;
                             metaCalls := metas; seeded := true; errorLog := [] |}
                      | Exit out code =>
                          {| outcome := Exit out code; client := st2; ran := done;
                             metaCalls := metas; seeded := true; errorLog := [] |}
                      end
                  | (o, st2) =>
                      {| outcome := o; client := st2; ran := done;
                         metaCalls := metas; seeded := true; errorLog := [] |}
                  end
              | (o, metas) => stopped o st1 done metas
              end
          end
      | (o, st1, done) => stopped o st1 done []
      end
  end.

End Client.

End Core.

Arguments run {host St R} d.
Arguments insert {host St R} d.
Arguments update {host St R} d.
Arguments delete {host St R} d.
Arguments select {host St R} d.

(** ** Properties under study, as predicates over the embedding *)

Section Predicates.

Context {host : Host}.

(** The column clause of the DDL carries a DEFAULT modifier exactly when the
    descriptor column has a default applied. *)
Definition default_presence_agrees (fieldName : string) (field : DBField)
  (isJsonSerializable : bool) : Prop :=
  forall modifiers c,
    getModifiers fieldName field = Return modifiers ->
    columnMapper fieldName field isJsonSerializable = Return c ->
    (includes modifiers " DEFAULT " = true <-> carries_default c = true).

(** A configuration abort: the invalid-default exit of [getDefaultValueSql],
    or the TypeError of escaping an undefined text. *)
Inductive config_abort {A : Type} : Completion A -> Prop :=
| abort_exit (columnName : string) :
    config_abort (Exit [invalid_default_message columnName] 0)
| abort_type (message : string) :
    config_abort (Throw (TypeError message)).

(** A generation step either returns or ends in a configuration abort. *)
Definition returns_or_aborts {A : Type} (c : Completion A) : Prop :=
  (exists a, c = Return a) \/ config_abort c.

(** Place of the [k]-th index statement of a collection in the statement
    sequence of a run: the statements of the collections before it are
    [before]; its own follow as drop, create, indexes. *)
Definition index_position (before : list SQL) (k : nat) : nat :=
  List.length before + 2 + k.

(** The ordering between the [k]-th index statement of a collection and the
    create statement of the collection [(name', c')], in a trace. *)
Definition created_before_index (collections : DBCollections) (trace : list SQL)
  (name' : string) (c' : DBCollection)
  (pre : DBCollections) (name : string) (c : DBCollection) (k : nat) : Prop :=
  forall post before createQuery,
    collections = (pre ++ (name, c) :: post)%list ->
    setupQueries pre = Return before ->
    k < List.length (getTableIndexQueries name c) ->
    index_position before k < List.length trace ->
    getCreateTableQuery name' c' = Return createQuery ->
    nth_error trace (index_position before k)
    = nth_error (getTableIndexQueries name c) k /\
    exists j, j < index_position before k /\ nth_error trace j = Some createQuery.

(** Every index statement that ran comes after the create statement of every
    collection of the run. *)
Definition indexes_after_all_tables (collections : DBCollections)
  (trace : list SQL) : Prop :=
  forall pre name c k name' c',
    In (name', c') collections ->
    created_before_index collections trace name' c' pre name c k.

(** Every index statement that ran comes after the create statement of its
    own collection. *)
Definition indexes_after_own_table (collections : DBCollections)
  (trace : list SQL) : Prop :=
  forall pre name c k,
    created_before_index collections trace name c pre name c k.


(** The descriptors handed to [_setMeta] are those built in the given mode. *)
Definition attaches_mode (isJsonSerializable : bool) (collections : DBCollections)
  (metas : list (string * Table)) : Prop :=
  Forall2 (fun (entry : string * DBCollection) (meta : string * Table) =>
             fst meta = fst entry /\
             collectionToTable (fst entry) (snd entry) isJsonSerializable
             = Return (snd meta))
          (filter (fun entry => _setMeta (snd entry)) collections) metas.

(** A column clause that starts with the escaped column name. *)
Definition escaped_clause (entry : string * DBField) (clause : string) : Prop :=
  exists modifiers,
    clause = sqlite.escapeName (fst entry) ++ " " ++
             schemaTypeToSqlType (field_type (snd entry)) ++ modifiers.

(** The columns of the created table: the synthesized [_id], when there is
    no declared primary key, then the declared fields. *)
Definition column_names (c : DBCollection) : list string :=
  (match find (fun entry => hasPrimaryKey (snd entry)) (fields c) with
   | None => ["_id"]
   | Some _ => []
   end ++ map fst (fields c))%list.

(** A CREATE TABLE statement in which the table name and the name of every
    column of the table are escaped. *)
Definition every_column_escaped (name : string) (c : DBCollection)
  (createQuery : string) : Prop :=
  exists clauses,
    Forall2 (fun columnName clause =>
               exists rest, clause = sqlite.escapeName columnName ++ rest)
            (column_names c) clauses /\
    createQuery = ("CREATE TABLE " ++ sqlite.escapeName name ++ " (") ++
                  String.concat ", " clauses ++ ")".

End Predicates.

(** ** Sample host and inputs *)

Module Sample.

Inductive value := v_null | v_empty_object | v_function | v_cyclic.

Definition stringify (v : value) : Stringified :=
  match v with
  | v_null => SString "null"
  | v_empty_object => SString "{}"
  | v_function => SUndefined
  | v_cyclic => SThrows (TypeError "Converting circular structure to JSON")
  end.

(** Dates are kept as the text they were parsed from. *)
Definition parse (s : string) : Completion string :=
  if String.eqb s "" then Throw (ZodError "Invalid date") else Return s.

Definition host : Host :=
  {| JsValue := value; JSON_stringify := stringify;
     JsDate := string; coerce_date_parse := parse |}.

End Sample.

Section Inputs.

Context {host : Host}.

(** A client that records the calls it receives and accepts them all. *)
Definition record_call (what : string) : Op (list string) string :=
  fun st => (Return what, (st ++ [what])%list).

Definition recording_db : Database (list string) string :=
  {| run := fun q st => (Return tt, (st ++ [("run " ++ q)%string])%list);
     insert := fun T => record_call ("insert " ++ tableName T);
     update := fun T => record_call ("update " ++ tableName T);
     delete := fun T => record_call ("delete " ++ tableName T);
     select := fun T => record_call ("select " ++ tableName T) |}.

Definition seed_ok : SeedProcedure (list string) string :=
  fun args st => (Return tt, (st ++ ["seed"])%list).

Definition seed_throws : SeedProcedure (list string) string :=
  fun args st => (Throw (Error "no such column"), (st ++ ["seed"])%list).


Definition collection_of (fs : list (string * DBField))
  (ix : option (list (string * DBIndex))) (w : bool) : DBCollection :=
  {| fields := fs; indexes := ix; writable := w; _setMeta := true |}.

(** [{ title: Text(optional: false), views: Number(default: d) }], with
    [views.optional] as given. *)
Definition posts (views_optional : option bool) (d : Z) : DBCollection :=
  collection_of [("title", TextField (Some false) None None None);
                 ("views", NumberField views_optional None (Some d) None)]
                None true.

(** The statement the specification gives for [posts] with default 0. *)
Definition posts_ddl_of_spec : string :=
  "CREATE TABLE " ++ dquote ++ "posts" ++ dquote ++ " (" ++
  dquote ++ "_id" ++ dquote ++ " INTEGER PRIMARY KEY, " ++
  dquote ++ "title" ++ dquote ++ " TEXT NOT NULL, " ++
  dquote ++ "views" ++ dquote ++ " INTEGER DEFAULT 0)".

Definition posts_ddl (views_optional : option bool) (d : Z) : string :=
  "CREATE TABLE " ++ dquote ++ "posts" ++ dquote ++
  " (_id INTEGER PRIMARY KEY, " ++
  dquote ++ "title" ++ dquote ++ " text NOT NULL, " ++
  dquote ++ "views" ++ dquote ++ " integer" ++
  (if truthy views_optional then "" else " NOT NULL") ++
  " DEFAULT " ++ number_toString d ++ ")".

(** [Number.MAX_SAFE_INTEGER] *)
Definition MAX_SAFE_INTEGER : Z := 9007199254740991.

(** A text primary key with an explicit default. *)
Definition slug : DBField := TextField None None (Some "x") (Some true).

(** A collection with a date column. *)
Definition events : DBCollection :=
  collection_of [("at", DateField None None (Some "2024-01-01T00:00:00.000Z"))]
                None true.

(** Two collections, the first read-only and with an index. *)
Definition authors : DBCollection :=
  collection_of [("name", TextField None None None None)]
                (Some [("by_name", {| on := OnOne "name"; index_unique := None |})])
                false.

Definition books : DBCollection :=
  collection_of [("title", TextField None None None None)] None true.

Definition library : DBCollections := [("authors", authors); ("books", books)].

(** An index on a column that is not a field. *)
Definition dangling : DBIndex := {| on := OnOne "author"; index_unique := None |}.

Definition articles : DBCollection :=
  collection_of [("title", TextField None None None None)]
                (Some [("by_author", dangling)]) true.

Definition table_named (name : string) : Table :=
  {| tableName := name; columns := []; table_indexes := [] |}.

End Inputs.

(** A Json default that cannot be serialized. *)
Definition broken : @DBCollection Sample.host :=
  collection_of
    [("meta", @JsonField Sample.host None None (Some Sample.v_cyclic))] None true.

(** ** Notions for the properties of the two builders *)

Section Notions.

Context {host : Host}.

(** The SQL type of a column kind: [dataType()] of the two custom types,
    and the type of the [text] and [integer] columns. *)
Definition dataType (k : ColumnKind) : string :=
  match k with
  | text | jsonType | dateType => "text"
  | integer | integer_boolean => "integer"
  end.

(** [c.notNull()], [c.unique()], [c.primaryKey(...)] was applied. *)
Definition applies_notNull (c : ColumnBuilder) : bool :=
  existsb (fun m => match m with call_notNull => true | _ => false end) (calls c).

Definition applies_unique (c : ColumnBuilder) : bool :=
  existsb (fun m => match m with call_unique => true | _ => false end) (calls c).

Definition applies_primaryKey (c : ColumnBuilder) : bool :=
  existsb (fun m => match m with call_primaryKey _ => true | _ => false end) (calls c).

(** [c.primaryKey({ autoIncrement: true })] was applied. *)
Definition applies_autoIncrement (c : ColumnBuilder) : bool :=
  existsb (fun m => match m with call_primaryKey true => true | _ => false end)
          (calls c).

Definition is_number_field (field : DBField) : bool :=
  match field with NumberField _ _ _ _ => true | _ => false end.

Definition is_date_field (field : DBField) : bool :=
  match field with DateField _ _ _ => true | _ => false end.

(** The date default of the field, if any, is the sentinel or is accepted by
    the date parser. *)
Definition date_default_parses (field : DBField) : bool :=
  match field with
  | DateField _ _ (Some s) =>
      if String.eqb s "now" then true else returns (coerce_date_parse s)
  | _ => true
  end.

(** The indexes of a collection without their [unique] flags. *)
Definition index_shape (c : DBCollection) : list (string * list string) :=
  map (fun entry : string * DBIndex => (fst entry, onColNames (snd entry)))
      (indexes_or_empty c).

(** The number of declared indexes over all collections. *)
Definition index_count (collections : DBCollections) : nat :=
  list_sum (map (fun entry : string * DBCollection =>
                   List.length (indexes_or_empty (snd entry))) collections).

(** The NOT NULL and UNIQUE parts of a column clause. *)
Definition not_null_part (present : bool) : string :=
  if present then " NOT NULL" else "".

Definition unique_part (present : bool) : string :=
  if present then " UNIQUE" else "".

(** A client like [recording_db] that rejects one statement. *)
Definition rejecting_db (rejected : SQL) : Database (list string) string :=
  {| run := fun q st =>
              if String.eqb q rejected
              then (Throw (Error "database is locked"), st)
              else run recording_db q st;
     insert := insert recording_db;
     update := update recording_db;
     delete := delete recording_db;
     select := select recording_db |}.

(** A collection with an index declared on no column. *)
Definition tags : DBCollection :=
  collection_of [("label", TextField None None None None)]
                (Some [("nothing", {| on := OnMany []; index_unique := Some true |})])
                true.

(** [authors] with its index declared unique. *)
Definition authors_unique : DBCollection :=
  collection_of [("name", TextField None None None None)]
                (Some [("by_name", {| on := OnMany ["name"]; index_unique := Some true |})])
                false.

(** The Json default of the field, if any, serializes to a text. *)
Definition json_default_serializes (field : DBField) : bool :=
  match field with
  | JsonField _ _ (Some v) =>
      match JSON_stringify v with
      | SString _ => true
      | _ => false
      end
  | _ => true
  end.

(** The statements of [authors] and of [books]. *)
Definition authors_statements : list SQL :=
  [ "DROP TABLE IF EXISTS authors";
    "CREATE TABLE " ++ dquote ++ "authors" ++ dquote ++
    " (_id INTEGER PRIMARY KEY, " ++ dquote ++ "name" ++ dquote ++
    " text NOT NULL)";
    "CREATE INDEX " ++ dquote ++ "by_name" ++ dquote ++ " ON " ++
    dquote ++ "authors" ++ dquote ++ " (" ++ dquote ++ "name" ++ dquote ++ ")" ].

Definition books_create : SQL :=
  "CREATE TABLE " ++ dquote ++ "books" ++ dquote ++
  " (_id INTEGER PRIMARY KEY, " ++ dquote ++ "title" ++ dquote ++
  " text NOT NULL)".

End Notions.

(** ** General lemmas *)

Unset Implicit Arguments.

Lemma bind_Return_inv {A B} (c : Completion A) (k : A -> Completion B) (b : B) :
  bind c k = Return b -> exists a, c = Return a /\ k a = Return b.
Proof.
  destruct c as [a| |]; simpl; intro H; try discriminate.
  exists a; split; [reflexivity | exact H].
Qed.

Lemma prefix_append (p s : string) : String.prefix p (p ++ s) = true.
Proof.
  induction p as [|a p IH]; simpl.
  - destruct s; reflexivity.
  - destruct (ascii_dec a a) as [_|n]; [exact IH | contradiction].
Qed.

Lemma includes_unfold (s sub : string) :
  includes s sub =
  if String.prefix sub s then true
  else match s with
       | EmptyString => false
       | String _ s' => includes s' sub
       end.
Proof. destruct s; reflexivity. Qed.

Lemma includes_prefix (p s : string) : includes (p ++ s) p = true.
Proof. rewrite includes_unfold, prefix_append. reflexivity. Qed.

Lemma includes_append (a s sub : string) :
  includes s sub = true -> includes (a ++ s) sub = true.
Proof.
  intro H. induction a as [|ch a IH].
  - exact H.
  - rewrite includes_unfold.
    destruct (String.prefix sub (String ch a ++ s)); [reflexivity | exact IH].
Qed.

Lemma includes_DEFAULT (m d : string) :
  includes (m ++ " DEFAULT " ++ d) " DEFAULT " = true.
Proof. apply includes_append, includes_prefix. Qed.


Lemma js_get_replace_other {V} (o : list (string * V)) (k k' : string) (v : V) :
  k <> k' -> js_get (js_replace o k v) k' = js_get o k'.
Proof.
  intro Hne. induction o as [|[k0 v0] o IH]; simpl; [reflexivity|].
  destruct (String.eqb_spec k0 k) as [->|Hk0]; simpl.
  - destruct (String.eqb_spec k k'); [contradiction | reflexivity].
  - rewrite IH. reflexivity.
Qed.


Lemma js_get_insert_other {V} (o : list (string * V)) (k k' : string) (v : V) :
  k <> k' -> js_get (js_insert o k v) k' = js_get o k'.
Proof.
  intro Hne. induction o as [|[k0 v0] o IH]; simpl.
  - destruct (String.eqb_spec k k'); [contradiction | reflexivity].
  - destruct (enumerated_before k k0); simpl.
    + destruct (String.eqb_spec k k'); [contradiction | reflexivity].
    + rewrite IH. reflexivity.
Qed.


Lemma js_get_set_other {V} (o : list (string * V)) (k k' : string) (v : V) :
  k <> k' -> js_get (js_set o k v) k' = js_get o k'.
Proof.
  intro Hne. unfold js_set. destruct (has_own o k).
  - exact (js_get_replace_other o k k' v Hne).
  - exact (js_get_insert_other o k k' v Hne).
Qed.

Lemma js_lookup_own {V} (o : list (string * V)) (k : string) (v : V) :
  js_get o k = Some v -> js_lookup o k = own v.
Proof. unfold js_lookup. intros ->. reflexivity. Qed.

Section Properties.

Context {host : Host}.

(** ** Default presence (hasDefault, getModifiers, columnMapper) *)

Lemma hasDefault_rule (field : DBField) :
  hasDefault field =
  default_defined field ||
  (hasPrimaryKey field && match field_type field with number_t => true | _ => false end).
Proof.
  unfold hasDefault. destruct (default_defined field); simpl; [reflexivity|].
  destruct (hasPrimaryKey field && _); reflexivity.
Qed.

(** A primary key renders as PRIMARY KEY alone. *)
Lemma getModifiers_primaryKey (fieldName : string) (field : DBField) :
  hasPrimaryKey field = true -> getModifiers fieldName field = Return " PRIMARY KEY".
Proof. unfold getModifiers. intros ->. reflexivity. Qed.

(** The descriptor column has a default applied exactly when the field
    declares one. *)
Lemma columnMapper_carries_default (fieldName : string) (field : DBField)
  (isJsonSerializable : bool) (c : ColumnBuilder) :
  columnMapper fieldName field isJsonSerializable = Return c ->
  carries_default c = default_defined field.
Proof.
  unfold columnMapper.
  destruct field as [o u [d|] pk | o u [d|] pk | o u [d|] | o u [d|] | o u [d|]];
    simpl; try destruct isJsonSerializable; simpl;
    try (destruct (String.eqb d "now"); simpl);
    try (destruct (coerce_date_parse d); simpl; try discriminate);
    try (destruct (strictly_true pk); simpl);
    destruct (truthy o); simpl; destruct (truthy u); simpl;
    intro H; injection H as <-; reflexivity.
Qed.

(** Without a primary key, the clause has DEFAULT exactly when the field
    declares a default. *)
Lemma getModifiers_DEFAULT (fieldName : string) (field : DBField) (modifiers : string) :
  hasPrimaryKey field = false ->
  getModifiers fieldName field = Return modifiers ->
  includes modifiers " DEFAULT " = default_defined field.
Proof.
  intros Hpk. unfold getModifiers. rewrite Hpk.
  rewrite hasDefault_rule, Hpk. simpl. rewrite orb_false_r.
  destruct (default_defined field).
  - intro H. apply bind_Return_inv in H as (d & _ & H).
    injection H as <-. apply includes_DEFAULT.
  - destruct (truthy (field_optional field)), (truthy (field_unique field));
      simpl; intro H; injection H as <-; reflexivity.
Qed.

(** C1, as amended. For every field of every variant that is not a primary
    key carrying an explicit default, and in both descriptor modes, the
    generated column clause has a DEFAULT modifier if and only if columnMapper
    applies a default to the descriptor column. *)
Theorem default_presence_agrees_unless_keyed_default
  (fieldName : string) (field : DBField) (isJsonSerializable : bool) :
  hasPrimaryKey field = false \/ default_defined field = false ->
  default_presence_agrees fieldName field isJsonSerializable.
Proof.
  intros Hside modifiers c Hm Hc.
  rewrite (columnMapper_carries_default _ _ _ _ Hc).
  destruct (hasPrimaryKey field) eqn:Hpk.
  - destruct Hside as [Hside | Hside]; [discriminate|].
    rewrite (getModifiers_primaryKey fieldName _ Hpk) in Hm.
    injection Hm as <-. rewrite Hside. simpl. tauto.
  - rewrite (getModifiers_DEFAULT _ _ _ Hpk Hm). tauto.
Qed.

(** ** The create-table statement of the specification's example *)

(** C2, as amended. For the collection "posts" with fields
    {title: Text(optional:false), views: Number(default:d)}, d a non-zero
    safe integer, getCreateTableQuery returns exactly
    CREATE TABLE "posts" (_id INTEGER PRIMARY KEY, "title" text NOT NULL,
    "views" integer NOT NULL DEFAULT d): the synthesized _id is not quoted,
    the storage types are in lower case, and NOT NULL is present on views
    unless views is declared optional. *)
Theorem posts_create_table_query (views_optional : option bool) (d : Z) :
  d <> 0%Z ->
  (- MAX_SAFE_INTEGER <= d <= MAX_SAFE_INTEGER)%Z ->
  getCreateTableQuery "posts" (posts views_optional d)
  = Return (posts_ddl views_optional d).
Proof.
  intros Hd _.
  unfold getCreateTableQuery, posts, posts_ddl. simpl.
  unfold getModifiers. simpl.
  apply Z.eqb_neq in Hd. rewrite Hd.
  destruct views_optional as [[|]|]; reflexivity.
Qed.

(** ** Index statements and index descriptors *)


Lemma tableIndexes_fold (c : DBCollection) (ormTable : list (string * ColumnBuilder)) :
  tableIndexes c ormTable = fold_left (index_step ormTable) (indexes_or_empty c) [].
Proof. reflexivity. Qed.

Lemma index_fold_other ormTable (idxs : list (string * DBIndex)) acc (k : string) :
  ~ In k (map fst idxs) ->
  js_get (fold_left (index_step ormTable) idxs acc) k = js_get acc k.
Proof.
  revert acc. induction idxs as [|[k' p] idxs IH]; intros acc Hk; simpl.
  - reflexivity.
  - simpl in Hk. rewrite IH by tauto.
    destruct (negb (atLeastOne _)); [reflexivity|].
    apply js_get_set_other. intro E; subst; tauto.
Qed.


Lemma columnMapper_json_returns (fieldName : string) (field : DBField) :
  exists c, columnMapper fieldName field true = Return c.
Proof.
  unfold columnMapper. destruct field; simpl; eexists; reflexivity.
Qed.

Lemma columns_json_return (fs : list (string * DBField)) cols0 :
  exists cols, foldM (column_step true) cols0 fs = Return cols.
Proof.
  revert cols0. induction fs as [|[n f] fs IH]; intro cols0; simpl.
  - eexists; reflexivity.
  - destruct (columnMapper_json_returns n f) as [c ->]. simpl. apply IH.
Qed.


Lemma collectionToTable_json_returns (name : string) (c : DBCollection) :
  exists t, collectionToTable name c true = Return t.
Proof.
  unfold collectionToTable.
  match goal with
  | |- context [foldM _ ?c0 ?l] =>
      destruct (columns_json_return l c0) as [cols Hcols]
  end.
  rewrite Hcols. simpl. eexists; reflexivity.
Qed.

Lemma collectionToTable_shape (name : string) (c : DBCollection) (m : bool) (t : Table) :
  collectionToTable name c m = Return t ->
  tableName t = name /\
  table_indexes t = tableIndexes c (columns t) /\
  foldM (column_step m)
        (if negb (existsb (fun entry => hasPrimaryKey (snd entry)) (fields c))
         then [("_id", apply_call (column integer "_id") (call_primaryKey false))]
         else [])
        (fields c) = Return (columns t).
Proof.
  unfold collectionToTable. intro H.
  apply bind_Return_inv in H as (cols & Hcols & H).
  injection H as <-. simpl. repeat split. exact Hcols.
Qed.


(** ** Escaping in the generated statements *)

Lemma length_append (a b : string) :
  String.length (a ++ b) = String.length a + String.length b.
Proof. induction a as [|ch a IH]; simpl; [reflexivity | rewrite IH; reflexivity]. Qed.

Lemma append_cancel (a x y : string) : a ++ x = a ++ y -> x = y.
Proof.
  induction a as [|ch a IH]; simpl; intro H; [exact H|].
  injection H as H. exact (IH H).
Qed.

Lemma escapeName_changes (name : string) : name <> sqlite.escapeName name.
Proof.
  intro H. apply (f_equal String.length) in H.
  unfold sqlite.escapeName in H. rewrite !length_append in H.
  simpl in H. lia.
Qed.

Lemma colQuery_escaped (l : list (string * DBField)) (clauses : list string) :
  mapM colQuery l = Return clauses -> Forall2 escaped_clause l clauses.
Proof.
  revert clauses. induction l as [|[n f] l IH]; intros clauses H; simpl in H.
  - injection H as <-. constructor.
  - apply bind_Return_inv in H as (cl & Hcl & H).
    apply bind_Return_inv in H as (cls & Hcls & H).
    injection H as <-.
    apply bind_Return_inv in Hcl as (m & _ & Hcl). injection Hcl as <-.
    constructor; [exists m; reflexivity | exact (IH _ Hcls)].
Qed.

(** C10, as amended. For every collection, the drop statement of the setup
    run is DROP TABLE IF EXISTS followed by the raw collection name, whereas
    the CREATE TABLE statement and every CREATE INDEX statement pass the
    table name and every declared column and index name through escapeName;
    the synthesized _id column is the bare literal _id INTEGER PRIMARY KEY.
    The drop statement thus never has the escaped name. *)
Theorem drop_is_raw_create_and_index_escape (name : string) (c : DBCollection)
  (qs : list SQL) :
  setupQueriesOf (name, c) = Return qs ->
  exists clauses,
    Forall2 escaped_clause (fields c) clauses /\
    qs = ("DROP TABLE IF EXISTS " ++ name)
         :: (("CREATE TABLE " ++ sqlite.escapeName name ++ " (") ++
             String.concat ", "
               (match find (fun entry => hasPrimaryKey (snd entry)) (fields c) with
                | None => ["_id INTEGER PRIMARY KEY"]
                | Some _ => []
                end ++ clauses)%list ++ ")")
         :: map (fun entry : string * DBIndex =>
                   "CREATE " ++
                   (if truthy (index_unique (snd entry)) then "UNIQUE " else "") ++
                   "INDEX " ++ sqlite.escapeName (fst entry) ++
                   " ON " ++ sqlite.escapeName name ++ " (" ++
                   String.concat ", "
                     (map sqlite.escapeName (onColNames (snd entry))) ++ ")")
                (indexes_or_empty c) /\
    "DROP TABLE IF EXISTS " ++ name
    <> "DROP TABLE IF EXISTS " ++ sqlite.escapeName name.
Proof.
  unfold setupQueriesOf. intro H.
  apply bind_Return_inv in H as (createQuery & Hcreate & H).
  injection H as <-.
  unfold getCreateTableQuery in Hcreate.
  apply bind_Return_inv in Hcreate as (clauses & Hclauses & Hcreate).
  injection Hcreate as <-.
  exists clauses. split; [exact (colQuery_escaped _ _ Hclauses)|]. split.
  - apply f_equal, f_equal. unfold getTableIndexQueries.
    apply map_ext. intros [ixName indexProps]. reflexivity.
  - intro E. apply append_cancel in E. exact (escapeName_changes _ E).
Qed.

(** ** The write guard *)

Section Guard.

Variables St R : Type.
Variable connect : string -> Database St R.
Variable collections : DBCollections.
Variable dbUrl : string.

(** C6. For a table whose collection is in the collection map: with writable
    false, insert, update and delete through the guarded handle raise the
    read-only error and leave the underlying client untouched; with writable
    true they give exactly what the underlying operation gives. Reading (and
    running statements) goes to the underlying client for any table, and with
    seeding = true the handle is the underlying client itself. *)
Theorem write_guard (T : Table) (collection : DBCollection) :
  js_get collections (getTableName T) = Some collection ->
  let db := connect dbUrl in
  let guardedDb := createLocalDatabaseClient connect collections dbUrl false in
  (writable collection = false ->
   forall st,
     let refused := (Throw (Error (readonly_message (getTableName T))), st) in
     insert guardedDb T st = refused /\
     update guardedDb T st = refused /\
     delete guardedDb T st = refused) /\
  (writable collection = true ->
   forall st,
     insert guardedDb T st = insert db T st /\
     update guardedDb T st = update db T st /\
     delete guardedDb T st = delete db T st) /\
  (forall T' st, select guardedDb T' st = select db T' st) /\
  (forall q st, run guardedDb q st = run db q st) /\
  createLocalDatabaseClient connect collections dbUrl true = db.
Proof.
  intros Hget db guardedDb. subst db guardedDb.
  unfold createLocalDatabaseClient. simpl.
  unfold guarded, checkIfModificationIsAllowed.
  rewrite (js_lookup_own _ _ _ Hget).
  split; [|split; [|split; [|split]]].
  - intros Hw st. rewrite Hw. simpl. repeat split.
  - intros Hw st. rewrite Hw. simpl. repeat split.
  - reflexivity.
  - reflexivity.
  - reflexivity.
Qed.

(** C9, as amended. For a table whose name is not a key of the collections
    map, insert, update and delete through the guarded handle never reach the
    underlying client. When the name is not a property name of
    Object.prototype they fail with the TypeError of reading a property of
    the missing entry, and the read-only error is not raised; when it is one
    (toString, constructor, ...), the lookup gives the inherited property,
    which has no writable flag, and the read-only error is raised. *)
Theorem guard_on_unknown_table (T : Table) :
  js_get collections (getTableName T) = None ->
  let guardedDb := createLocalDatabaseClient connect collections dbUrl false in
  (is_inherited (getTableName T) = false ->
   exists message,
     message <> readonly_message (getTableName T) /\
     forall st,
       let failed := (Throw (TypeError message), st) in
       insert guardedDb T st = failed /\
       update guardedDb T st = failed /\
       delete guardedDb T st = failed) /\
  (is_inherited (getTableName T) = true ->
   forall st,
     let refused := (Throw (Error (readonly_message (getTableName T))), st) in
     insert guardedDb T st = refused /\
     update guardedDb T st = refused /\
     delete guardedDb T st = refused).
Proof.
  intros Hget guardedDb. subst guardedDb.
  unfold createLocalDatabaseClient. simpl.
  unfold guarded, checkIfModificationIsAllowed, js_lookup. rewrite Hget.
  split; intros ->.
  - exists "Cannot read properties of undefined (reading 'writable')". split.
    + unfold readonly_message. discriminate.
    + intro st. repeat split.
  - intro st. repeat split.
Qed.

End Guard.

(** ** The installer: statement sequence *)

Lemma setupQueries_fold (collections : DBCollections) :
  setupQueries collections = foldM queries_step [] collections.
Proof. reflexivity. Qed.

Lemma queries_fold_acc (collections : DBCollections) (acc : list SQL) :
  foldM queries_step acc collections
  = (qs <- foldM queries_step [] collections ;; Return (acc ++ qs)%list).
Proof.
  revert acc. induction collections as [|e rest IH]; intro acc; simpl.
  - rewrite app_nil_r. reflexivity.
  - unfold queries_step at 1 3.
    destruct (setupQueriesOf e) as [more| |]; simpl; try reflexivity.
    rewrite (IH (acc ++ more)%list), (IH more).
    destruct (foldM queries_step [] rest) as [qs| |]; simpl; try reflexivity.
    rewrite app_assoc. reflexivity.
Qed.

Lemma setupQueries_cons (e : string * DBCollection) (rest : DBCollections) :
  setupQueries (e :: rest)
  = (own <- setupQueriesOf e ;; others <- setupQueries rest ;;
     Return (own ++ others)%list).
Proof.
  rewrite !setupQueries_fold. simpl. unfold queries_step at 1.
  destruct (setupQueriesOf e) as [more| |]; simpl; try reflexivity.
  apply queries_fold_acc.
Qed.

Lemma setupQueries_split (pre : DBCollections) (e : string * DBCollection)
  (post : DBCollections) (qs : list SQL) :
  setupQueries (pre ++ e :: post)%list = Return qs ->
  exists before own after,
    setupQueries pre = Return before /\
    setupQueriesOf e = Return own /\
    setupQueries post = Return after /\
    qs = (before ++ own ++ after)%list.
Proof.
  revert qs. induction pre as [|e0 pre IH]; intros qs H.
  - simpl in H. rewrite setupQueries_cons in H.
    apply bind_Return_inv in H as (own & Hown & H).
    apply bind_Return_inv in H as (after & Hafter & H).
    injection H as <-. exists [], own, after. repeat split; assumption.
  - simpl in H. rewrite setupQueries_cons in H.
    apply bind_Return_inv in H as (own0 & Hown0 & H).
    apply bind_Return_inv in H as (others & Hothers & H).
    injection H as <-.
    destruct (IH _ Hothers) as (before & own & after & Hb & Ho & Ha & ->).
    exists (own0 ++ before)%list, own, after. repeat split; try assumption.
    + rewrite setupQueries_cons, Hown0, Hb. reflexivity.
    + rewrite app_assoc. reflexivity.
Qed.

(** ** The installer: configuration aborts *)

Lemma bind_returns_or_aborts {A B} (c : Completion A) (k : A -> Completion B) :
  returns_or_aborts c -> (forall a, returns_or_aborts (k a)) ->
  returns_or_aborts (bind c k).
Proof.
  intros [[a ->] | Hc] Hk; simpl; [apply Hk|].
  right. destruct Hc; constructor.
Qed.

Lemma Return_returns {A} (a : A) : returns_or_aborts (Return a).
Proof. left. exists a. reflexivity. Qed.

Lemma escapeString_of_shape (x : option string) :
  returns_or_aborts (escapeString_of x).
Proof. destruct x; [apply Return_returns | right; constructor]. Qed.

Lemma getDefaultValueSql_shape (columnName : string) (column : DBField) :
  returns_or_aborts (getDefaultValueSql columnName column).
Proof.
  destruct column as [o u d pk | o u d pk | o u d | o u d | o u d];
    unfold getDefaultValueSql.
  - apply escapeString_of_shape.
  - apply Return_returns.
  - apply Return_returns.
  - destruct (is_now d); [apply Return_returns | apply escapeString_of_shape].
  - destruct d as [v|]; [|apply escapeString_of_shape].
    destruct (JSON_stringify v); try apply escapeString_of_shape.
    right. constructor.
Qed.

Lemma getModifiers_shape (fieldName : string) (field : DBField) :
  returns_or_aborts (getModifiers fieldName field).
Proof.
  unfold getModifiers.
  destruct (hasPrimaryKey field); [apply Return_returns|].
  destruct (hasDefault field); [|apply Return_returns].
  apply bind_returns_or_aborts; [apply getDefaultValueSql_shape|].
  intro; apply Return_returns.
Qed.

Lemma mapM_shape {A B} (f : A -> Completion B) (l : list A) :
  (forall x, returns_or_aborts (f x)) -> returns_or_aborts (mapM f l).
Proof.
  intro Hf. induction l as [|x l IH]; simpl; [apply Return_returns|].
  apply bind_returns_or_aborts; [apply Hf|]. intro y.
  apply bind_returns_or_aborts; [exact IH|]. intro; apply Return_returns.
Qed.

Lemma getCreateTableQuery_shape (name : string) (c : DBCollection) :
  returns_or_aborts (getCreateTableQuery name c).
Proof.
  unfold getCreateTableQuery.
  apply bind_returns_or_aborts; [|intro; apply Return_returns].
  apply mapM_shape. intros [n f]. unfold colQuery.
  apply bind_returns_or_aborts; [apply getModifiers_shape|].
  intro; apply Return_returns.
Qed.

Lemma setupQueries_shape (collections : DBCollections) :
  returns_or_aborts (setupQueries collections).
Proof.
  induction collections as [|[name c] rest IH].
  - apply Return_returns.
  - rewrite setupQueries_cons.
    apply bind_returns_or_aborts.
    + unfold setupQueriesOf.
      apply bind_returns_or_aborts; [apply getCreateTableQuery_shape|].
      intro; apply Return_returns.
    + intro. apply bind_returns_or_aborts; [exact IH|].
      intro; apply Return_returns.
Qed.

Lemma mapM_stops {A B} (f : A -> Completion B) (l : list A) (x : A) :
  In x l -> (forall b, f x <> Return b) -> forall bs, mapM f l <> Return bs.
Proof.
  intros Hin Hx. induction l as [|y l IH]; [destruct Hin|].
  intros bs H. simpl in H.
  apply bind_Return_inv in H as (b & Hb & H).
  apply bind_Return_inv in H as (bs' & Hbs' & _).
  destruct Hin as [-> | Hin]; [exact (Hx _ Hb) | exact (IH Hin _ Hbs')].
Qed.

Lemma unserializable_stops_modifiers (fieldName : string)
  (o u : option bool) (v : JsValue) (e : Exn) :
  JSON_stringify v = SThrows e ->
  getModifiers fieldName (JsonField o u (Some v))
  = Exit [invalid_default_message fieldName] 0.
Proof.
  intro Hv. unfold getModifiers. simpl. rewrite Hv. reflexivity.
Qed.

Lemma unserializable_stops_queries (collections : DBCollections)
  (name : string) (c : DBCollection) (fieldName : string)
  (o u : option bool) (v : JsValue) (e : Exn) :
  In (name, c) collections ->
  In (fieldName, JsonField o u (Some v)) (fields c) ->
  JSON_stringify v = SThrows e ->
  config_abort (setupQueries collections).
Proof.
  intros Hc Hf Hv.
  destruct (setupQueries_shape collections) as [[qs Hqs] | Habort];
    [exfalso | exact Habort].
  apply in_split in Hc as (pre & post & ->).
  apply setupQueries_split in Hqs as (_ & own & _ & _ & Hown & _).
  unfold setupQueriesOf in Hown.
  apply bind_Return_inv in Hown as (createQuery & Hcreate & _).
  unfold getCreateTableQuery in Hcreate.
  apply bind_Return_inv in Hcreate as (clauses & Hclauses & _).
  revert Hclauses. apply (mapM_stops colQuery _ _ Hf).
  intros b Hb. unfold colQuery in Hb.
  rewrite (unserializable_stops_modifiers _ _ _ _ _ Hv) in Hb. discriminate.
Qed.

Section Installer.

Variables St R : Type.
Variable db : Database St R.

Lemma runAll_done (qs : list SQL) (st : St) (done : list SQL) :
  exists n,
    snd (runAll db qs st done) = (done ++ firstn n qs)%list /\
    (returns (fst (fst (runAll db qs st done))) = true ->
     snd (runAll db qs st done) = (done ++ qs)%list).
Proof.
  revert st done. induction qs as [|q qs IH]; intros st done; simpl.
  - exists 0. simpl. rewrite app_nil_r. split; reflexivity.
  - destruct (run db q st) as [[u| e | out code] st'] eqn:Hrun.
    + destruct (IH st' (done ++ [q])%list) as (n & Hn & Hall).
      exists (S n). simpl. rewrite <- app_assoc in Hn, Hall. split; assumption.
    + exists 1. simpl. split; [reflexivity | discriminate].
    + exists 1. simpl. split; [reflexivity | discriminate].
Qed.

Lemma attachTables_json (collections : DBCollections)
  (metas0 : list (string * Table)) :
  exists metas,
    attachTables collections metas0 = (Return tt, (metas0 ++ metas)%list) /\
    attaches_mode isJsonSerializable_default collections metas.
Proof.
  revert metas0. unfold attaches_mode.
  induction collections as [|[name c] rest IH]; intro metas0; simpl.
  - exists []. rewrite app_nil_r. split; [reflexivity | constructor].
  - destruct (collectionToTable_json_returns name c) as [t Ht].
    unfold isJsonSerializable_default at 1. rewrite Ht.
    destruct (_setMeta c).
    + destruct (IH (metas0 ++ [(name, t)])%list) as (metas & Hrun & Hall).
      exists ((name, t) :: metas). rewrite <- app_assoc in Hrun.
      split; [exact Hrun|]. constructor; [split; [reflexivity | exact Ht] | exact Hall].
    + destruct (IH metas0) as (metas & Hrun & Hall).
      exists metas. split; assumption.
Qed.

Variable data : option (SeedProcedure St R).
Variable collections : DBCollections.
Variable logger : bool.
Variable mode : Mode.
Variable st : St.

(** The statements that ran are an initial part of the generated sequence. *)
Lemma ran_is_initial_part :
  let result := setupDbTables db data collections logger mode st in
  match setupQueries collections with
  | Return qs => exists n, ran result = firstn n qs
  | _ => ran result = []
  end.
Proof.
  intro result. subst result. unfold setupDbTables.
  destruct (setupQueries collections) as [qs| |]; try reflexivity.
  destruct (runAll_done qs st []) as (n & Hn & _). exists n.
  destruct (runAll db qs st []) as [[o st1] done]. simpl in Hn. subst done.
  destruct o as [u| |]; try reflexivity.
  destruct data as [seedProcedure|]; [|reflexivity].
  destruct (attachTables collections []) as [[u'| |] metas]; try reflexivity.
  destruct (seedProcedure _ st1) as [[|e|] st2]; try reflexivity.
  destruct (exn_toString e); reflexivity.
Qed.

(** C4, as amended. In every setup run over any collection mapping, every
    CREATE INDEX statement given to the client comes after the CREATE TABLE
    statement of its own collection: the statements run collection by
    collection, in mapping order, each collection's drop, create and index
    statements in that order. *)
Theorem indexes_run_after_own_table :
  indexes_after_own_table collections
    (ran (setupDbTables db data collections logger mode st)).
Proof.
  intros pre name c k post before createQuery Hsplit Hpre Hk Hlen Hcreate.
  pose proof ran_is_initial_part as Hran. simpl in Hran.
  destruct (setupQueries collections) as [qs| |] eqn:Hqs;
    try (rewrite Hran in Hlen; simpl in Hlen; lia).
  destruct Hran as [n Hn].
  rewrite Hsplit in Hqs.
  apply setupQueries_split in Hqs as (before' & own & after & Hb & Ho & _ & ->).
  rewrite Hpre in Hb. injection Hb as <-.
  unfold setupQueriesOf in Ho. rewrite Hcreate in Ho. simpl in Ho.
  injection Ho as <-.
  unfold index_position in *.
  rewrite Hn in Hlen |- *. rewrite length_firstn in Hlen.
  split.
  - rewrite nth_error_firstn.
    destruct (Nat.ltb_spec (List.length before + 2 + k) n) as [_|Hge]; [|lia].
    rewrite nth_error_app2 by lia.
    replace (List.length before + 2 + k - List.length before) with (S (S k)) by lia.
    simpl. apply nth_error_app1. exact Hk.
  - exists (List.length before + 1). split; [lia|].
    rewrite nth_error_firstn.
    destruct (Nat.ltb_spec (List.length before + 1) n) as [_|Hge]; [|lia].
    rewrite nth_error_app2 by lia.
    replace (List.length before + 1 - List.length before) with 1 by lia.
    reflexivity.
Qed.

(** C8. If a field of a collection of the run has a Json default whose JSON
    serialization throws, the setup ends during the generation of the
    statements, by the exit that follows the invalid-default message (exit
    code 0) or, when an earlier Json default serializes to undefined, by the
    TypeError of escaping it; no statement has been given to the client, no
    descriptor attached and the seed procedure has not been called. *)
Theorem unserializable_default_stops_setup (name : string) (c : DBCollection)
  (fieldName : string) (o u : option bool) (v : JsValue) (e : Exn) :
  In (name, c) collections ->
  In (fieldName, JsonField o u (Some v)) (fields c) ->
  JSON_stringify v = SThrows e ->
  let result := setupDbTables db data collections logger mode st in
  config_abort (outcome result) /\
  ran result = [] /\
  client result = st /\
  metaCalls result = [] /\
  seeded result = false.
Proof.
  intros Hc Hf Hv result. subst result.
  pose proof (unserializable_stops_queries _ _ _ _ _ _ _ _ Hc Hf Hv) as Habort.
  unfold setupDbTables.
  destruct Habort; simpl; repeat split; constructor.
Qed.

End Installer.

(** ** The installer: seeding *)

Section Seeding.

Variables St R : Type.
Variable db : Database St R.
Variable seedProcedure : SeedProcedure St R.
Variable collections : DBCollections.
Variable logger : bool.
Variable mode : Mode.
Variable st : St.

(** C3, as amended. When a seed procedure is supplied and the statements of
    the run have been generated and run, the table descriptor that
    setupDbTables builds and hands to each collection's metadata slot before
    calling the seed procedure is collectionToTable(name, collection) with
    isJsonSerializable left at its default, true: the JSON-transport-mode
    descriptor (dates as text columns), for every collection and in order;
    the seed procedure is then called with these descriptors in place. *)
Theorem seed_tables_are_json_mode (qs : list SQL) (st1 : St) (done : list SQL) :
  setupQueries collections = Return qs ->
  runAll db qs st [] = (Return tt, st1, done) ->
  let result :=
    setupDbTables db (Some seedProcedure) collections logger mode st in
  attaches_mode true collections (metaCalls result) /\
  seeded result = true /\
  client result
  = snd (seedProcedure {| seed_db := db; seed_mode := mode;
                          seed_tables := metaCalls result |} st1).
Proof.
  intros Hqs Hrun result. subst result. unfold setupDbTables.
  rewrite Hqs, Hrun.
  destruct (attachTables_json collections []) as (metas & Hmetas & Hall).
  rewrite Hmetas. simpl.
  destruct (seedProcedure _ st1) as [[u| e | out code] st2] eqn:Hseed;
    try destruct (exn_toString e);
    simpl; rewrite Hseed; repeat split; exact Hall.
Qed.


End Seeding.

End Properties.

(** ** The two builders side by side *)

Section Builders.

Context {host : Host}.

(** What [columnMapper] applies, read off the field. *)
Lemma columnMapper_facts (fieldName : string) (field : DBField)
  (isJsonSerializable : bool) (c : ColumnBuilder) :
  columnMapper fieldName field isJsonSerializable = Return c ->
  columnName c = fieldName /\
  dataType (kind c) = schemaTypeToSqlType (field_type field) /\
  applies_notNull c = negb (truthy (field_optional field)) /\
  applies_unique c = truthy (field_unique field) /\
  applies_primaryKey c = hasPrimaryKey field /\
  applies_autoIncrement c = hasPrimaryKey field && is_number_field field.
Proof.
  unfold columnMapper, hasPrimaryKey.
  destruct field as [o u [d|] pk | o u [d|] pk | o u [d|] | o u [d|] | o u [d|]];
    simpl; try destruct isJsonSerializable; simpl;
    try (destruct (String.eqb d "now"); simpl);
    try (destruct (coerce_date_parse d); simpl; try discriminate);
    try (destruct pk as [[|]|]; simpl);
    destruct o as [[|]|]; simpl; destruct u as [[|]|]; simpl;
    intro H; injection H as <-; repeat split.
Qed.

(** The shape of the modifiers of a field that is not a primary key. *)
Lemma getModifiers_structure (fieldName : string) (field : DBField)
  (modifiers : string) :
  hasPrimaryKey field = false ->
  getModifiers fieldName field = Return modifiers ->
  exists rest,
    modifiers = not_null_part (negb (truthy (field_optional field))) ++
                unique_part (truthy (field_unique field)) ++ rest /\
    (rest = "" \/ exists literal, rest = " DEFAULT " ++ literal).
Proof.
  intros Hpk. unfold getModifiers. rewrite Hpk.
  destruct (hasDefault field).
  - intro H. apply bind_Return_inv in H as (d & _ & H). injection H as <-.
    exists (" DEFAULT " ++ d). split; [|right; exists d; reflexivity].
    destruct (truthy (field_optional field)), (truthy (field_unique field));
      reflexivity.
  - intro H. injection H as <-. exists "". split; [|left; reflexivity].
    destruct (truthy (field_optional field)), (truthy (field_unique field));
      reflexivity.
Qed.

(** X1. The descriptor column built for a field bears the field's name, and
    its kind has the storage type that the column clause of the CREATE TABLE
    statement gives the field, in both modes. *)
Theorem storage_type_agrees (fieldName : string) (field : DBField)
  (isJsonSerializable : bool) (c : ColumnBuilder) :
  columnMapper fieldName field isJsonSerializable = Return c ->
  columnName c = fieldName /\
  dataType (kind c) = schemaTypeToSqlType (field_type field).
Proof.
  intro H. destruct (columnMapper_facts _ _ _ _ H) as (Hn & Ht & _).
  split; assumption.
Qed.

(** X2. For a field that is not a primary key, the modifiers of the column
    clause are NOT NULL, UNIQUE and DEFAULT literal, in this order, with
    NOT NULL present exactly when the descriptor column has notNull applied
    and UNIQUE exactly when it has unique applied. *)
Theorem constraints_agree (fieldName : string) (field : DBField)
  (isJsonSerializable : bool) (modifiers : string) (c : ColumnBuilder) :
  hasPrimaryKey field = false ->
  getModifiers fieldName field = Return modifiers ->
  columnMapper fieldName field isJsonSerializable = Return c ->
  exists rest,
    modifiers = not_null_part (applies_notNull c) ++
                unique_part (applies_unique c) ++ rest /\
    (rest = "" \/ exists literal, rest = " DEFAULT " ++ literal).
Proof.
  intros Hpk Hm Hc.
  destruct (columnMapper_facts _ _ _ _ Hc) as (_ & _ & -> & -> & _).
  exact (getModifiers_structure _ _ _ Hpk Hm).
Qed.

(** X3. The two builders mark the same fields as keys: the modifiers of the
    column clause are PRIMARY KEY alone exactly when the descriptor column has
    primaryKey applied, and the descriptor asks for auto-increment exactly on
    a Number key, which the clause never mentions. *)
Theorem key_marking_agrees (fieldName : string) (field : DBField)
  (isJsonSerializable : bool) (modifiers : string) (c : ColumnBuilder) :
  getModifiers fieldName field = Return modifiers ->
  columnMapper fieldName field isJsonSerializable = Return c ->
  (modifiers = " PRIMARY KEY" <-> applies_primaryKey c = true) /\
  applies_autoIncrement c = applies_primaryKey c && is_number_field field.
Proof.
  intros Hm Hc.
  destruct (columnMapper_facts _ _ _ _ Hc) as (_ & _ & _ & _ & Hk & Ha).
  rewrite Ha, Hk. split; [|reflexivity].
  destruct (hasPrimaryKey field) eqn:Hpk.
  - rewrite (getModifiers_primaryKey _ _ Hpk) in Hm. injection Hm as <-. tauto.
  - split; [|discriminate].
    destruct (getModifiers_structure _ _ _ Hpk Hm) as (rest & -> & Hrest).
    destruct (truthy (field_optional field)), (truthy (field_unique field));
      destruct Hrest as [-> | [literal ->]]; simpl; discriminate.
Qed.

(** X4. For a Number field that is not a primary key and declares the safe
    integer d as default, the DEFAULT literal of the column clause is the
    decimal text of d when d is not zero, and AUTOINCREMENT when d is zero. *)
Theorem number_default_literal (fieldName : string) (o u pk : option bool) (d : Z) :
  truthy pk = false ->
  (- MAX_SAFE_INTEGER <= d <= MAX_SAFE_INTEGER)%Z ->
  getModifiers fieldName (NumberField o u (Some d) pk)
  = Return (not_null_part (negb (truthy o)) ++ unique_part (truthy u) ++
            " DEFAULT " ++
            (if Z.eqb d 0 then "AUTOINCREMENT" else number_toString d)).
Proof.
  intros Hpk _. unfold getModifiers, hasPrimaryKey. simpl. rewrite Hpk. simpl.
  destruct (truthy o), (truthy u); reflexivity.
Qed.

(** X5. The date default 'now' becomes CURRENT_TIMESTAMP on both paths: the
    DEFAULT literal of the column clause is the bare keyword, and the
    descriptor column gets the SQL fragment as default, in both modes and
    without the date parser being consulted. *)
Theorem now_is_current_timestamp (fieldName : string) (o u : option bool)
  (isJsonSerializable : bool) :
  getModifiers fieldName (DateField o u (Some "now"))
  = Return (not_null_part (negb (truthy o)) ++ unique_part (truthy u) ++
            " DEFAULT CURRENT_TIMESTAMP") /\
  exists c,
    columnMapper fieldName (DateField o u (Some "now")) isJsonSerializable
    = Return c /\
    In (call_default (DSql "CURRENT_TIMESTAMP")) (calls c) /\
    kind c = (if isJsonSerializable then text else dateType).
Proof.
  split.
  - unfold getModifiers. simpl. destruct (truthy o), (truthy u); reflexivity.
  - unfold columnMapper. destruct isJsonSerializable; simpl;
      eexists; (split; [reflexivity|]); split; try reflexivity;
      destruct (truthy o), (truthy u); simpl; auto.
Qed.

End Builders.

(** ** The built table *)

Section BuiltTable.

Context {host : Host}.









Lemma columnMapper_mode (fieldName : string) (field : DBField) :
  is_date_field field = false ->
  columnMapper fieldName field true = columnMapper fieldName field false.
Proof. destruct field; simpl; intro H; [reflexivity.. | discriminate | reflexivity]. Qed.

Lemma columns_mode (fs : list (string * DBField)) cols0 :
  forallb (fun entry => negb (is_date_field (snd entry))) fs = true ->
  foldM (column_step true) cols0 fs = foldM (column_step false) cols0 fs.
Proof.
  revert cols0. induction fs as [|[n f] fs IH]; intros cols0 H; simpl in *.
  - reflexivity.
  - apply andb_prop in H as [Hf Hfs]. apply negb_true_iff in Hf.
    rewrite (columnMapper_mode n f Hf).
    destruct (columnMapper n f false); simpl; try reflexivity.
    apply IH. exact Hfs.
Qed.

(** X8. The two descriptor modes differ on date fields only: for a
    collection without a date field, the JSON-transport table and the native
    table are the same. *)
Theorem modes_agree_without_dates (name : string) (c : DBCollection) :
  forallb (fun entry => negb (is_date_field (snd entry))) (fields c) = true ->
  collectionToTable name c true = collectionToTable name c false.
Proof.
  intro H. unfold collectionToTable. rewrite (columns_mode _ _ H). reflexivity.
Qed.

Lemma columnMapper_native_returns (fieldName : string) (field : DBField) :
  returns (columnMapper fieldName field false) = date_default_parses field.
Proof.
  unfold columnMapper.
  destruct field as [o u d pk | o u d pk | o u d | o u [s|] | o u d];
    simpl; try reflexivity.
  destruct (String.eqb s "now"); [reflexivity|].
  destruct (coerce_date_parse s); reflexivity.
Qed.

Lemma columns_native_return (fs : list (string * DBField)) cols0 :
  returns (foldM (column_step false) cols0 fs)
  = forallb (fun entry => date_default_parses (snd entry)) fs.
Proof.
  revert cols0. induction fs as [|[n f] fs IH]; intro cols0; simpl.
  - reflexivity.
  - rewrite <- (columnMapper_native_returns n f).
    destruct (columnMapper n f false); simpl; [apply IH | reflexivity..].
Qed.

(** X9. Building a table never fails in JSON-transport mode; in native mode
    it returns exactly when every date default other than 'now' is accepted
    by the date parser. *)
Theorem table_building_failures (name : string) (c : DBCollection) :
  returns (collectionToTable name c true) = true /\
  returns (collectionToTable name c false)
  = forallb (fun entry => date_default_parses (snd entry)) (fields c).
Proof.
  split.
  - destruct (collectionToTable_json_returns name c) as [t ->]. reflexivity.
  - unfold collectionToTable.
    rewrite <- columns_native_return with
      (cols0 := if negb (existsb (fun entry : string * DBField =>
                                    hasPrimaryKey (snd entry)) (fields c))
                then [("_id", apply_call (column integer "_id")
                                (call_primaryKey false))]
                else []).
    destruct (foldM _ _ (fields c)); reflexivity.
Qed.

Lemma index_fold_empty ormTable (idxs : list (string * DBIndex)) acc
  (ixName : string) (indexProps : DBIndex) :
  NoDup (map fst idxs) ->
  In (ixName, indexProps) idxs ->
  onColNames indexProps = [] ->
  js_get (fold_left (index_step ormTable) idxs acc) ixName = js_get acc ixName.
Proof.
  revert acc. induction idxs as [|[k p] idxs IH]; intros acc Hnd Hin Hempty.
  - destruct Hin.
  - simpl in Hnd. inversion Hnd as [|? ? Hnot Hnd']; subst.
    destruct Hin as [Heq | Hin].
    + injection Heq as -> ->. simpl. rewrite Hempty. simpl.
      apply index_fold_other. exact Hnot.
    + simpl. rewrite (IH _ Hnd' Hin Hempty).
      destruct (negb (atLeastOne _)); [reflexivity|].
      apply js_get_set_other. intro E. subst k. apply Hnot.
      apply (in_map fst) in Hin. exact Hin.
Qed.

(** X10. An index declared on an empty list of columns still gets its
    CREATE INDEX statement, with an empty column list, while the built table
    has no index under its name. *)
Theorem empty_index_is_emitted_but_not_built (name : string) (c : DBCollection)
  (ixName : string) (indexProps : DBIndex) :
  NoDup (map fst (indexes_or_empty c)) ->
  In (ixName, indexProps) (indexes_or_empty c) ->
  onColNames indexProps = [] ->
  In ("CREATE " ++ (if truthy (index_unique indexProps) then "UNIQUE " else "") ++
      "INDEX " ++ sqlite.escapeName ixName ++ " ON " ++ sqlite.escapeName name ++
      " ()")
     (getTableIndexQueries name c) /\
  forall m t,
    collectionToTable name c m = Return t ->
    js_get (table_indexes t) ixName = None.
Proof.
  intros Hnd Hin Hempty. split.
  - unfold getTableIndexQueries.
    replace ("CREATE " ++ _) with (indexQuery name (ixName, indexProps)).
    + apply in_map. exact Hin.
    + unfold indexQuery. rewrite Hempty. reflexivity.
  - intros m t Ht.
    apply collectionToTable_shape in Ht as (_ & -> & _).
    rewrite tableIndexes_fold.
    rewrite (index_fold_empty _ _ _ _ _ Hnd Hin Hempty). reflexivity.
Qed.

Lemma index_fold_shape ormTable (idxs idxs' : list (string * DBIndex)) acc :
  map (fun entry : string * DBIndex => (fst entry, onColNames (snd entry))) idxs
  = map (fun entry : string * DBIndex => (fst entry, onColNames (snd entry))) idxs' ->
  fold_left (index_step ormTable) idxs acc
  = fold_left (index_step ormTable) idxs' acc.
Proof.
  revert idxs' acc.
  induction idxs as [|[k p] idxs IH]; intros [|[k' p'] idxs'] acc H;
    simpl in H; try discriminate; [reflexivity|].
  injection H as -> Hon H. simpl. rewrite Hon. apply IH. exact H.
Qed.

(** X11. The built table does not record whether an index is unique: two
    collections with the same fields, whose indexes have the same names and
    columns, build the same table, whatever the unique flags (which only show
    in the CREATE INDEX statements). *)
Theorem index_uniqueness_is_not_built (name : string) (c c' : DBCollection)
  (isJsonSerializable : bool) :
  fields c = fields c' ->
  index_shape c = index_shape c' ->
  collectionToTable name c isJsonSerializable
  = collectionToTable name c' isJsonSerializable.
Proof.
  intros Hf Hix. unfold collectionToTable. rewrite Hf.
  destruct (foldM _ _ (fields c')) as [cols| |]; simpl; try reflexivity.
  unfold sqliteTable, tableIndexes.
  rewrite (index_fold_shape cols _ _ [] Hix). reflexivity.
Qed.

End BuiltTable.

(** ** The course of a setup run *)

Section SetupRuns.

Context {host : Host}.

Variables St R : Type.
Variable db : Database St R.

Lemma runAll_app (l1 l2 : list SQL) (st : St) (done : list SQL) :
  runAll db (l1 ++ l2) st done
  = match runAll db l1 st done with
    | (Return _, st', done') => runAll db l2 st' done'
    | stop => stop
    end.
Proof.
  revert st done. induction l1 as [|q l1 IH]; intros st done; simpl.
  - reflexivity.
  - destruct (run db q st) as [[u| e | out code] st']; [apply IH | reflexivity..].
Qed.

Lemma runAll_returns_all (qs : list SQL) (st st1 : St) (done : list SQL) (u : unit) :
  runAll db qs st [] = (Return u, st1, done) -> done = qs.
Proof.
  intro H. destruct (runAll_done St R db qs st []) as (_ & _ & Hall).
  rewrite H in Hall. exact (Hall eq_refl).
Qed.

Variable data : option (SeedProcedure St R).
Variable collections : DBCollections.
Variable logger : bool.
Variable mode : Mode.
Variable st : St.

(** X12. If the client rejects a statement of the run, setupDbTables fails
    with the client's error as it is: the statements after the rejected one
    are not given to the client, no descriptor is attached, the seed
    procedure is not called and nothing is logged. *)
Theorem rejected_statement_stops_setup (pre post : list SQL) (q : SQL)
  (st1 st2 : St) (done : list SQL) (e : Exn) :
  setupQueries collections = Return (pre ++ q :: post)%list ->
  runAll db pre st [] = (Return tt, st1, done) ->
  run db q st1 = (Throw e, st2) ->
  setupDbTables db data collections logger mode st
  = {| outcome := Throw e; client := st2; ran := (pre ++ [q])%list;
       metaCalls := []; seeded := false; errorLog := [] |}.
Proof.
  intros Hqs Hpre Hq. unfold setupDbTables. rewrite Hqs, runAll_app, Hpre.
  apply runAll_returns_all in Hpre. subst done.
  simpl. rewrite Hq. reflexivity.
Qed.

(** X13. The seed procedure is called exactly when one is supplied, the
    statements of the run have been generated and the client has accepted
    every one of them. *)
Theorem seed_is_called_after_a_full_run :
  seeded (setupDbTables db data collections logger mode st) = true <->
  (exists seedProcedure, data = Some seedProcedure) /\
  exists qs st1,
    setupQueries collections = Return qs /\
    runAll db qs st [] = (Return tt, st1, qs).
Proof.
  unfold setupDbTables. split.
  - destruct (setupQueries collections) as [qs| |]; try discriminate.
    destruct (runAll db qs st []) as [[o st1] done] eqn:Hrun.
    destruct o as [[]| |]; try discriminate.
    destruct data as [seedProcedure|]; try discriminate.
    intros _. split; [exists seedProcedure; reflexivity|].
    exists qs, st1. split; [reflexivity|].
    rewrite (runAll_returns_all _ _ _ _ _ Hrun) in Hrun. exact Hrun.
  - intros [[seedProcedure ->] (qs & st1 & -> & ->)].
    destruct (attachTables_json collections []) as (metas & -> & _).
    destruct (seedProcedure _ st1) as [[|e|] st2]; try reflexivity.
    destruct (exn_toString e); reflexivity.
Qed.

(** X14. A setup run that returns normally has given every generated
    statement to the client, in the order of generation. *)
Theorem normal_return_ran_everything :
  outcome (setupDbTables db data collections logger mode st) = Return tt ->
  exists qs,
    setupQueries collections = Return qs /\
    ran (setupDbTables db data collections logger mode st) = qs.
Proof.
  unfold setupDbTables.
  destruct (setupQueries collections) as [qs| |]; try discriminate.
  destruct (runAll db qs st []) as [[o st1] done] eqn:Hrun.
  destruct o as [[]| |]; try discriminate.
  apply runAll_returns_all in Hrun. subst done.
  destruct data as [seedProcedure|];
    [|intros _; exists qs; split; reflexivity].
  destruct (attachTables_json collections []) as (metas & -> & _).
  destruct (seedProcedure _ st1) as [[|e|] st2];
    try (intros _; exists qs; split; reflexivity).
  destruct (exn_toString e); intro H; try discriminate H;
    exists qs; split; reflexivity.
Qed.


End SetupRuns.

Section Statements.

Context {host : Host}.

(** X16. The statement sequence of a run has two statements per collection,
    the drop and the create, and one more for each declared index. *)
Theorem statement_count (collections : DBCollections) (qs : list SQL) :
  setupQueries collections = Return qs ->
  List.length qs = 2 * List.length collections + index_count collections.
Proof.
  revert qs. induction collections as [|[name c] rest IH]; intros qs H.
  - injection H as <-. reflexivity.
  - rewrite setupQueries_cons in H.
    apply bind_Return_inv in H as (own & Hown & H).
    apply bind_Return_inv in H as (others & Hothers & H).
    injection H as <-.
    unfold setupQueriesOf in Hown.
    apply bind_Return_inv in Hown as (createQuery & _ & Hown).
    injection Hown as <-.
    rewrite length_app, (IH _ Hothers). unfold index_count, getTableIndexQueries.
    simpl. rewrite length_map. lia.
Qed.

(** X17. In the statement sequence of a run, every collection's table is
    dropped just before it is created: the statement before each
    CREATE TABLE statement is the DROP TABLE IF EXISTS of the same
    collection. *)
Theorem drop_comes_just_before_create (pre post : DBCollections)
  (name : string) (c : DBCollection) (qs before : list SQL) :
  setupQueries (pre ++ (name, c) :: post)%list = Return qs ->
  setupQueries pre = Return before ->
  nth_error qs (List.length before) = Some ("DROP TABLE IF EXISTS " ++ name) /\
  exists createQuery,
    getCreateTableQuery name c = Return createQuery /\
    nth_error qs (S (List.length before)) = Some createQuery.
Proof.
  intros Hqs Hpre.
  apply setupQueries_split in Hqs as (before' & own & after & Hb & Ho & _ & ->).
  rewrite Hpre in Hb. injection Hb as <-.
  unfold setupQueriesOf in Ho.
  apply bind_Return_inv in Ho as (createQuery & Hcreate & Ho). injection Ho as <-.
  split.
  - rewrite nth_error_app2 by lia. rewrite Nat.sub_diag. reflexivity.
  - exists createQuery. split; [exact Hcreate|].
    rewrite nth_error_app2 by lia.
    replace (S (List.length before) - List.length before) with 1 by lia.
    reflexivity.
Qed.

End Statements.

Section GuardedTables.

Context {host : Host}.

Variables St R : Type.
Variable connect : string -> Database St R.
Variable collections : DBCollections.
Variable dbUrl : string.

(** X18. A table built from a collection of the map is guarded by that
    collection's writable flag: insert, update and delete on it are refused
    with the read-only error naming the collection when the flag is false,
    and go to the underlying client when it is true. *)
Theorem built_table_is_guarded_by_its_collection (name : string)
  (c : DBCollection) (isJsonSerializable : bool) (t : Table) :
  js_get collections name = Some c ->
  collectionToTable name c isJsonSerializable = Return t ->
  let db := connect dbUrl in
  let guardedDb := createLocalDatabaseClient connect collections dbUrl false in
  forall st,
    if writable c
    then insert guardedDb t st = insert db t st /\
         update guardedDb t st = update db t st /\
         delete guardedDb t st = delete db t st
    else insert guardedDb t st = (Throw (Error (readonly_message name)), st) /\
         update guardedDb t st = (Throw (Error (readonly_message name)), st) /\
         delete guardedDb t st = (Throw (Error (readonly_message name)), st).
Proof.
  intros Hget Ht db guardedDb st. subst db guardedDb.
  apply collectionToTable_shape in Ht as (Hname & _ & _).
  unfold createLocalDatabaseClient. simpl.
  unfold guarded, checkIfModificationIsAllowed, getTableName.
  rewrite Hname, (js_lookup_own _ _ _ Hget).
  destruct (writable c); simpl; repeat split.
Qed.

End GuardedTables.

(** ** When the generation of the statements fails *)

Section Generation.

Context {host : Host}.

Lemma getModifiers_returns (fieldName : string) (field : DBField) :
  returns (getModifiers fieldName field) = json_default_serializes field.
Proof.
  unfold getModifiers, hasPrimaryKey, hasDefault.
  destruct field as [o u [d|] pk | o u [d|] pk | o u [d|] | o u [d|] | o u [v|]];
    simpl; try (destruct pk as [[|]|]; simpl); try reflexivity.
  - destruct (String.eqb d "now"); reflexivity.
  - destruct (JSON_stringify v); reflexivity.
Qed.

Lemma colQueries_return (fs : list (string * DBField)) :
  returns (mapM colQuery fs)
  = forallb (fun entry => json_default_serializes (snd entry)) fs.
Proof.
  induction fs as [|[n f] fs IH]; simpl; [reflexivity|].
  rewrite <- (getModifiers_returns n f).
  destruct (getModifiers n f); simpl; try reflexivity.
  rewrite <- IH. destruct (mapM colQuery fs); reflexivity.
Qed.

Lemma getCreateTableQuery_returns (name : string) (c : DBCollection) :
  returns (getCreateTableQuery name c)
  = forallb (fun entry => json_default_serializes (snd entry)) (fields c).
Proof.
  unfold getCreateTableQuery. rewrite <- colQueries_return.
  destruct (mapM colQuery (fields c)); reflexivity.
Qed.

(** X19. The generation of the statements of a run returns exactly when
    every declared Json default serializes to a text; defaults of the other
    field types never make it fail. *)
Theorem generation_fails_on_json_defaults_only (collections : DBCollections) :
  returns (setupQueries collections)
  = forallb (fun entry : string * DBCollection =>
               forallb (fun field => json_default_serializes (snd field))
                       (fields (snd entry)))
            collections.
Proof.
  induction collections as [|[name c] rest IH]; [reflexivity|].
  rewrite setupQueries_cons. simpl.
  rewrite <- (getCreateTableQuery_returns name c), <- IH.
  unfold setupQueriesOf.
  destruct (getCreateTableQuery name c); simpl; try reflexivity.
  destruct (setupQueries rest); reflexivity.
Qed.

End Generation.

(** ** The theorems at the sample inputs *)

#[local] Existing Instance Sample.host.

Lemma default_presence_agrees_witness :
  includes " NOT NULL DEFAULT 5" " DEFAULT " = true <->
  carries_default {| columnName := "views"; kind := integer;
                     calls := [call_default (DNumber 5); call_notNull] |} = true.
Proof.
  apply (default_presence_agrees_unless_keyed_default
           "views" (NumberField None None (Some 5%Z) None) true
           (or_introl eq_refl) " NOT NULL DEFAULT 5" _ eq_refl eq_refl).
Defined.

(** C1, as stated, fails: for a text primary key with an explicit default
    the clause is PRIMARY KEY alone while the descriptor column has the
    default applied. *)
Lemma default_presence_disagrees_on_keyed_default :
  ~ default_presence_agrees "slug" slug true.
Proof.
  intro H.
  specialize (H " PRIMARY KEY" _ eq_refl eq_refl).
  destruct H as [_ H]. specialize (H eq_refl). discriminate H.
Qed.

(** The presence rule itself holds for a number primary key without a
    default, although neither the clause nor the descriptor column carries
    one. *)
Example hasDefault_number_key :
  let field := NumberField None None None (Some true) in
  hasDefault field = true /\
  getModifiers "id" field = Return " PRIMARY KEY" /\
  exists c, columnMapper "id" field true = Return c /\ carries_default c = false.
Proof. repeat split. eexists. split; reflexivity. Qed.

Lemma posts_create_table_query_witness :
  getCreateTableQuery "posts" (posts None 7) = Return (posts_ddl None 7).
Proof.
  apply posts_create_table_query; unfold MAX_SAFE_INTEGER; lia.
Defined.

(** C2, as stated, fails: with default 0 the statement is not the one the
    specification gives, whether views is optional or not. *)
Lemma posts_ddl_is_not_the_one_of_the_spec :
  getCreateTableQuery "posts" (posts None 0) <> Return posts_ddl_of_spec /\
  getCreateTableQuery "posts" (posts (Some true) 0) <> Return posts_ddl_of_spec.
Proof.
  split; intro H;
    apply (f_equal (fun r => match r with
                             | Return query => String.eqb query posts_ddl_of_spec
                             | _ => false
                             end)) in H;
    vm_compute in H; discriminate H.
Qed.

(** What the code returns for the example of the specification. *)
Example posts_ddl_with_default_zero :
  getCreateTableQuery "posts" (posts None 0)
  = Return ("CREATE TABLE " ++ dquote ++ "posts" ++ dquote ++
            " (_id INTEGER PRIMARY KEY, " ++
            dquote ++ "title" ++ dquote ++ " text NOT NULL, " ++
            dquote ++ "views" ++ dquote ++
            " integer NOT NULL DEFAULT AUTOINCREMENT)").
Proof. reflexivity. Qed.

Lemma seed_tables_are_json_mode_witness :
  let result :=
    setupDbTables recording_db (Some seed_ok) [("events", events)] false dev [] in
  attaches_mode true [("events", events)] (metaCalls result) /\
  seeded result = true /\
  client result
  = snd (seed_ok {| seed_db := recording_db; seed_mode := dev;
                    seed_tables := metaCalls result |}
           ["run DROP TABLE IF EXISTS events";
            "run CREATE TABLE " ++ dquote ++ "events" ++ dquote ++
            " (_id INTEGER PRIMARY KEY, " ++ dquote ++ "at" ++ dquote ++
            " text NOT NULL DEFAULT '2024-01-01T00:00:00.000Z')"]).
Proof.
  eapply (seed_tables_are_json_mode (list string) string recording_db seed_ok
            [("events", events)] false dev []); reflexivity.
Defined.

(** C3, as stated, fails: the descriptor attached for a collection with a
    date field is not the native-mode one. *)
Lemma seed_tables_are_not_native_mode :
  ~ attaches_mode false [("events", events)]
      (metaCalls (setupDbTables recording_db (Some seed_ok)
                    [("events", events)] false dev [])).
Proof.
  unfold attaches_mode. intro H. inversion H as [|? ? ? ? [_ Heq] _]; subst.
  vm_compute in Heq. discriminate Heq.
Qed.

Lemma indexes_run_after_own_table_witness :
  nth_error (ran (setupDbTables recording_db None library false dev []))
            (index_position [] 0)
  = nth_error (getTableIndexQueries "authors" authors) 0 /\
  exists j,
    j < index_position [] 0 /\
    nth_error (ran (setupDbTables recording_db None library false dev [])) j
    = Some ("CREATE TABLE " ++ dquote ++ "authors" ++ dquote ++
            " (_id INTEGER PRIMARY KEY, " ++ dquote ++ "name" ++ dquote ++
            " text NOT NULL)").
Proof.
  apply (indexes_run_after_own_table (list string) string recording_db None
           library false dev [] [] "authors" authors 0 [("books", books)] []).
  - reflexivity.
  - reflexivity.
  - simpl. lia.
  - vm_compute. lia.
  - reflexivity.
Defined.

(** C4, as stated, fails: the index statement of the first collection runs
    before the create statement of the second. *)
Lemma index_runs_before_a_later_table :
  ~ indexes_after_all_tables library
      (ran (setupDbTables recording_db None library false dev [])).
Proof.
  intro H.
  destruct (H [] "authors" authors 0 "books" books
              (or_intror (or_introl eq_refl))
              [("books", books)] [] _ eq_refl eq_refl
              ltac:(simpl; lia) ltac:(vm_compute; lia) eq_refl)
    as (_ & j & Hj & Hnth).
  unfold index_position in Hj. simpl in Hj.
  destruct j as [|[|j]]; [| | lia]; vm_compute in Hnth; discriminate Hnth.
Qed.



(** The table built for [articles] has the index, on an undefined column. *)
Example articles_index_descriptor :
  exists t,
    collectionToTable "articles" articles isJsonSerializable_default = Return t /\
    js_get (table_indexes t) "by_author"
    = Some {| indexName := "by_author"; index_on := [undefined] |}.
Proof. eexists. split; reflexivity. Qed.

Lemma write_guard_witness :
  let connect := fun _ : string => recording_db in
  let guardedDb := createLocalDatabaseClient connect library "file:content.db" false in
  (writable authors = false ->
   forall st,
     let refused :=
       (Throw (Error (readonly_message "authors")), st) in
     insert guardedDb (table_named "authors") st = refused /\
     update guardedDb (table_named "authors") st = refused /\
     delete guardedDb (table_named "authors") st = refused) /\
  (writable authors = true ->
   forall st,
     insert guardedDb (table_named "authors") st
     = insert recording_db (table_named "authors") st /\
     update guardedDb (table_named "authors") st
     = update recording_db (table_named "authors") st /\
     delete guardedDb (table_named "authors") st
     = delete recording_db (table_named "authors") st) /\
  (forall T' st, select guardedDb T' st = select recording_db T' st) /\
  (forall q st, run guardedDb q st = run recording_db q st) /\
  createLocalDatabaseClient connect library "file:content.db" true = recording_db.
Proof.
  apply (write_guard (list string) string (fun _ => recording_db) library
           "file:content.db" (table_named "authors") authors).
  reflexivity.
Defined.

(** The guard lets a write to a writable collection through. *)
Example write_to_writable_collection :
  insert (createLocalDatabaseClient (fun _ => recording_db) library
            "file:content.db" false) (table_named "books") []
  = (Return "insert books", ["insert books"]).
Proof. reflexivity. Qed.



Lemma unserializable_default_stops_setup_witness :
  let result :=
    setupDbTables recording_db (Some seed_ok)
      (library ++ [("broken", broken)])%list false dev [] in
  config_abort (outcome result) /\
  ran result = [] /\
  client result = [] /\
  metaCalls result = [] /\
  seeded result = false.
Proof.
  apply (unserializable_default_stops_setup (list string) string recording_db
           (Some seed_ok) (library ++ [("broken", broken)])%list false dev []
           "broken" broken "meta" None None Sample.v_cyclic
           (TypeError "Converting circular structure to JSON")).
  - simpl. right. right. left. reflexivity.
  - simpl. left. reflexivity.
  - reflexivity.
Defined.

(** The run over [broken] ends by the exit with code 0. *)
Example broken_setup_exits :
  outcome (setupDbTables recording_db (Some seed_ok)
             (library ++ [("broken", broken)])%list false dev [])
  = Exit [invalid_default_message "meta"] 0.
Proof. reflexivity. Qed.

Lemma guard_on_unknown_table_witness :
  let guardedDb :=
    createLocalDatabaseClient (fun _ => recording_db) library "file:content.db" false in
  (is_inherited "drafts" = false ->
   exists message,
     message <> readonly_message "drafts" /\
     forall st,
       let failed := (Throw (TypeError message), st) in
       insert guardedDb (table_named "drafts") st = failed /\
       update guardedDb (table_named "drafts") st = failed /\
       delete guardedDb (table_named "drafts") st = failed) /\
  (is_inherited "drafts" = true ->
   forall st,
     let refused := (Throw (Error (readonly_message "drafts")), st) in
     insert guardedDb (table_named "drafts") st = refused /\
     update guardedDb (table_named "drafts") st = refused /\
     delete guardedDb (table_named "drafts") st = refused).
Proof.
  apply (guard_on_unknown_table (list string) string (fun _ => recording_db)
           library "file:content.db" (table_named "drafts")).
  reflexivity.
Defined.

(** The guard on a table that is in no way known fails with the TypeError. *)
Example write_to_unknown_table :
  insert (createLocalDatabaseClient (fun _ => recording_db) library
            "file:content.db" false) (table_named "drafts") []
  = (Throw (TypeError "Cannot read properties of undefined (reading 'writable')"),
     []).
Proof. reflexivity. Qed.

(** C9, as stated, fails: for a table named toString, which is not a key of
    the collections map, the guard raises the read-only error, not the
    TypeError of a missing entry. *)
Lemma guard_on_inherited_name_is_read_only :
  js_get library "toString" = None /\
  insert (createLocalDatabaseClient (fun _ => recording_db) library
            "file:content.db" false) (table_named "toString") []
  = (Throw (Error (readonly_message "toString")), []) /\
  ~ exists message,
      insert (createLocalDatabaseClient (fun _ => recording_db) library
                "file:content.db" false) (table_named "toString") []
      = (Throw (TypeError message), []).
Proof.
  split; [reflexivity|]. split; [reflexivity|].
  intros [message H]. vm_compute in H. discriminate H.
Qed.

Lemma drop_is_raw_create_and_index_escape_witness :
  exists clauses,
    Forall2 escaped_clause (fields authors) clauses /\
    [ "DROP TABLE IF EXISTS authors";
      "CREATE TABLE " ++ dquote ++ "authors" ++ dquote ++
      " (_id INTEGER PRIMARY KEY, " ++ dquote ++ "name" ++ dquote ++
      " text NOT NULL)";
      "CREATE INDEX " ++ dquote ++ "by_name" ++ dquote ++ " ON " ++
      dquote ++ "authors" ++ dquote ++ " (" ++ dquote ++ "name" ++ dquote ++ ")" ]
    = ("DROP TABLE IF EXISTS " ++ "authors")
      :: (("CREATE TABLE " ++ sqlite.escapeName "authors" ++ " (") ++
          String.concat ", "
            (match find (fun entry => hasPrimaryKey (snd entry)) (fields authors) with
             | None => ["_id INTEGER PRIMARY KEY"]
             | Some _ => []
             end ++ clauses)%list ++ ")")
      :: map (fun entry : string * DBIndex =>
                "CREATE " ++
                (if truthy (index_unique (snd entry)) then "UNIQUE " else "") ++
                "INDEX " ++ sqlite.escapeName (fst entry) ++
                " ON " ++ sqlite.escapeName "authors" ++ " (" ++
                String.concat ", "
                  (map sqlite.escapeName (onColNames (snd entry))) ++ ")")
             (indexes_or_empty authors) /\
    "DROP TABLE IF EXISTS " ++ "authors"
    <> "DROP TABLE IF EXISTS " ++ sqlite.escapeName "authors".
Proof.
  apply (drop_is_raw_create_and_index_escape "authors" authors).
  reflexivity.
Defined.

(** C10, as stated, fails: in the CREATE TABLE statement of a collection
    without a declared primary key the column _id is not escaped. *)
Lemma synthesized_id_is_not_escaped :
  ~ exists createQuery,
      getCreateTableQuery "books" books = Return createQuery /\
      every_column_escaped "books" books createQuery.
Proof.
  intros (createQuery & Hcreate & clauses & Hall & Heq).
  vm_compute in Hcreate. injection Hcreate as <-.
  unfold column_names in Hall. simpl in Hall.
  inversion Hall as [|? clause ? rest [tail ->] Hrest]; subst.
  inversion Hrest as [|? clause' ? rest' [tail' ->] Hrest']; subst.
  inversion Hrest'; subst.
  vm_compute in Heq. discriminate Heq.
Qed.

(** ** Further properties at the sample inputs *)

Lemma storage_type_agrees_witness :
  columnName {| columnName := "at"; kind := dateType;
                calls := [call_default (DSql "CURRENT_TIMESTAMP"); call_notNull] |}
  = "at" /\
  dataType dateType = schemaTypeToSqlType date_t.
Proof.
  apply (storage_type_agrees "at" (DateField None None (Some "now")) false _ eq_refl).
Defined.

Lemma constraints_agree_witness :
  exists rest,
    " NOT NULL UNIQUE DEFAULT 'x'"
    = not_null_part true ++ unique_part true ++ rest /\
    (rest = "" \/ exists literal, rest = " DEFAULT " ++ literal).
Proof.
  apply (constraints_agree "code" (TextField None (Some true) (Some "x") None) true
           " NOT NULL UNIQUE DEFAULT 'x'" _ eq_refl eq_refl eq_refl).
Defined.

Lemma key_marking_agrees_witness :
  (" PRIMARY KEY" = " PRIMARY KEY" <->
   applies_primaryKey {| columnName := "id"; kind := integer;
                         calls := [call_primaryKey true; call_notNull] |} = true) /\
  applies_autoIncrement {| columnName := "id"; kind := integer;
                           calls := [call_primaryKey true; call_notNull] |}
  = applies_primaryKey {| columnName := "id"; kind := integer;
                          calls := [call_primaryKey true; call_notNull] |}
    && is_number_field (NumberField None None None (Some true)).
Proof.
  apply (key_marking_agrees "id" (NumberField None None None (Some true)) true
           " PRIMARY KEY" _ eq_refl eq_refl).
Defined.

Lemma number_default_literal_witness :
  getModifiers "views" (NumberField (Some true) None (Some 0%Z) None)
  = Return " DEFAULT AUTOINCREMENT".
Proof.
  apply (number_default_literal "views" (Some true) None None 0 eq_refl).
  unfold MAX_SAFE_INTEGER. lia.
Defined.



Lemma modes_agree_without_dates_witness :
  collectionToTable "books" books true = collectionToTable "books" books false.
Proof.
  apply (modes_agree_without_dates "books" books). reflexivity.
Defined.

Lemma empty_index_is_emitted_but_not_built_witness :
  In ("CREATE UNIQUE INDEX " ++ sqlite.escapeName "nothing" ++ " ON " ++
      sqlite.escapeName "tags" ++ " ()")
     (getTableIndexQueries "tags" tags) /\
  forall m t,
    collectionToTable "tags" tags m = Return t ->
    js_get (table_indexes t) "nothing" = None.
Proof.
  apply (empty_index_is_emitted_but_not_built "tags" tags "nothing"
           {| on := OnMany []; index_unique := Some true |}).
  - simpl. constructor; [simpl; tauto | constructor].
  - simpl. left. reflexivity.
  - reflexivity.
Defined.

Lemma index_uniqueness_is_not_built_witness :
  collectionToTable "authors" authors true
  = collectionToTable "authors" authors_unique true.
Proof.
  apply (index_uniqueness_is_not_built "authors" authors authors_unique true);
    reflexivity.
Defined.

Lemma rejected_statement_stops_setup_witness :
  setupDbTables (rejecting_db "DROP TABLE IF EXISTS books") (Some seed_ok)
    library false dev []
  = {| outcome := Throw (Error "database is locked");
       client := map (String.append "run ") authors_statements;
       ran := (authors_statements ++ ["DROP TABLE IF EXISTS books"])%list;
       metaCalls := []; seeded := false; errorLog := [] |}.
Proof.
  apply (rejected_statement_stops_setup (list string) string
           (rejecting_db "DROP TABLE IF EXISTS books") (Some seed_ok)
           library false dev [] authors_statements [books_create]
           "DROP TABLE IF EXISTS books"
           (map (String.append "run ") authors_statements)
           (map (String.append "run ") authors_statements)
           authors_statements (Error "database is locked"));
    reflexivity.
Defined.

Lemma normal_return_ran_everything_witness :
  exists qs,
    setupQueries library = Return qs /\
    ran (setupDbTables recording_db (Some seed_throws) library false dev []) = qs.
Proof.
  apply (normal_return_ran_everything (list string) string recording_db
           (Some seed_throws) library false dev []).
  reflexivity.
Defined.


Lemma statement_count_witness :
  List.length (authors_statements ++ ["DROP TABLE IF EXISTS books"; books_create])%list
  = 2 * List.length library + index_count library.
Proof.
  apply (statement_count library). reflexivity.
Defined.

Lemma drop_comes_just_before_create_witness :
  nth_error (authors_statements ++ ["DROP TABLE IF EXISTS books"; books_create])%list
            (List.length authors_statements)
  = Some ("DROP TABLE IF EXISTS " ++ "books") /\
  exists createQuery,
    getCreateTableQuery "books" books = Return createQuery /\
    nth_error (authors_statements ++ ["DROP TABLE IF EXISTS books"; books_create])%list
              (S (List.length authors_statements))
    = Some createQuery.
Proof.
  apply (drop_comes_just_before_create [("authors", authors)] [] "books" books);
    reflexivity.
Defined.

Lemma built_table_is_guarded_by_its_collection_witness :
  exists t,
    collectionToTable "authors" authors true = Return t /\
    forall st,
      let guardedDb :=
        createLocalDatabaseClient (fun _ => recording_db) library
          "file:content.db" false in
      insert guardedDb t st = (Throw (Error (readonly_message "authors")), st) /\
      update guardedDb t st = (Throw (Error (readonly_message "authors")), st) /\
      delete guardedDb t st = (Throw (Error (readonly_message "authors")), st).
Proof.
  eexists. split; [reflexivity|].
  exact (built_table_is_guarded_by_its_collection (list string) string
           (fun _ => recording_db) library "file:content.db"
           "authors" authors true _ eq_refl eq_refl).
Defined.
